(** * starbot: the reaction relay of [star_bot/callbacks.py] and the
      start-up join loop of [star_bot/main.py]

    The bot listens for Matrix events that matrix-nio does not know
    ([UnknownEvent]), recognises [m.reaction] annotations, and for a star
    reaction of its own account republishes the starred message in the
    configured star room.

    The Python code is embedded shallowly.  Strings are byte strings (the
    UTF-8 encoding of the Python text), dictionaries are [gmap]s, and the
    coroutines run in a small state-and-exception monad over a [World]
    holding the client's joined rooms and the trace of the effects
    performed so far.  The answers of the homeserver are read from oracles
    indexed by the number of earlier calls of the same kind. *)

From Stdlib Require Import ZArith Ascii String List Lia.
From stdpp Require Import base option gmap strings list fin_maps pretty.

Local Open Scope string_scope.
Local Open Scope list_scope.
Local Set Warnings "-register-all".

(** ** Decoded JSON, as found in [event.source] *)

(** Matrix events are canonical JSON, whose numbers are integers. *)
Inductive json : Type :=
| JNull
| JBool (b : bool)
| JNum (z : Z)
| JStr (s : string)
| JList (l : list json)
| JDict (d : gmap string json).

(** Python exceptions that the modelled code can meet. *)
Inductive exn : Type :=
| AttributeError (attr : string)
| NameError (name : string)
| LocalProtocolError (msg : string)
| ClientConnectionError
| ServerDisconnectedError.

(** Result of evaluating a pure expression that may raise. *)
Inductive result (A : Type) : Type :=
| Ok (a : A)
| Err (e : exn).
Arguments Ok {A} a.
Arguments Err {A} e.

(** [v.get(k, dflt)].  Only dictionaries have a [get] method; on any other
    value Python raises [AttributeError]. *)
Definition py_get (v : json) (k : string) (dflt : json) : result json :=
  match v with
  | JDict d => Ok (default dflt (d !! k))
  | _ => Err (AttributeError "get")
  end.

(** [v == s] for a string literal [s]. *)
Definition py_eq_str (v : json) (s : string) : bool :=
  match v with
  | JStr t => bool_decide (t = s)
  | _ => false
  end.

(** Truth value of a decoded JSON value, as tested by [if v and ...]. *)
Definition truthy (v : json) : bool :=
  match v with
  | JNull => false
  | JBool b => b
  | JNum z => negb (Z.eqb z 0)
  | JStr s => negb (bool_decide (s = EmptyString))
  | JList l => negb (bool_decide (l = []))
  | JDict d => negb (bool_decide (d = ∅))
  end.

(** ** Rooms, events and the answers of the transport layer *)

Record MatrixRoom : Type := { room_id : string; display_name : string }.

(** An event of a type unknown to matrix-nio. *)
Record UnknownEvent : Type :=
  { ev_type : string; ev_sender : string; ev_source : gmap string json }.

(** The [event] argument of [_reaction]: an [UnknownEvent], or a
    [MegolmEvent], an encrypted envelope that could not be decrypted. *)
Inductive Event : Type :=
| Unknown (e : UnknownEvent)
| Megolm (sender : string) (source : gmap string json).

(** The event returned by [room_get_event].  Only message events carry a
    [body] attribute. *)
Inductive RoomEvent : Type :=
| TargetMegolm (sender event_id : string)
| TargetMessage (sender event_id body : string)
| TargetOther (sender event_id : string).

Inductive get_event_response : Type :=
| RoomGetEventResponse (event : RoomEvent)
| RoomGetEventError (message : string).

Inductive send_result : Type :=
| RoomSendResponse (event_id : string)
| RoomSendError (message : string).

Inductive send_outcome : Type :=
| SendReturns (r : send_result)
| SendRaises (e : exn).

(** [client.sync()] refreshes the joined rooms, or raises. *)
Inductive sync_outcome : Type :=
| SyncDone (rooms' : gmap string MatrixRoom)
| SyncRaises (e : exn).

Inductive join_result : Type :=
| JoinResponse (joined : string)
| JoinError (message : string).

(** [client.sync_forever] returns only when it is stopped. *)
Inductive forever_outcome : Type :=
| ForeverRaises (e : exn)
| ForeverReturns.

(** ** Effects and the world *)

Inductive level : Type := DEBUG | INFO | WARNING | ERROR.

(** What is handed to a [logger] call. *)
Inductive log_value : Type :=
| LText (s : string)
| LBool (b : bool)
| LNat (n : nat)
| LJson (v : json)
| LRoom (r : MatrixRoom)
| LSend (r : send_result)
| LJoin (r : join_result)
| LExn (e : exn).

Inductive effect : Type :=
| Log (lv : level) (msg : log_value) (args : list log_value)
| RoomGetEvent (room : string) (event_id : json)
| SendText (room : string) (message : string) (notice : bool) (res : send_outcome)
| Sync
| Join (room : string)
| SyncForever (timeout : Z) (full_state : bool)
| Sleep (seconds : Z)
| Close.

(** [rooms] is [client.rooms]; [trace] lists the effects in the order in
    which they happened. *)
Record World : Type := { rooms : gmap string MatrixRoom; trace : list effect }.

Definition emit_to (w : World) (e : effect) : World :=
  {| rooms := rooms w; trace := trace w ++ [e] |}.

Definition emits (w : World) (l : list effect) : World :=
  {| rooms := rooms w; trace := trace w ++ l |}.

(** The send attempts of a trace, in order. *)
Definition sends (t : list effect) : list (string * string * bool * send_outcome) :=
  omap (fun e => match e with
                 | SendText r m n res => Some (r, m, n, res)
                 | _ => None
                 end) t.

(** The attempts that the homeserver acknowledged. *)
Definition acknowledged (s : string * string * bool * send_outcome) : bool :=
  match s.2 with
  | SendReturns (RoomSendResponse _) => true
  | _ => false
  end.

Definition delivered (t : list effect) : list (string * string * bool * send_outcome) :=
  List.filter acknowledged (sends t).

Definition is_sync (e : effect) : bool :=
  match e with Sync => true | _ => false end.

Definition is_join (e : effect) : bool :=
  match e with Join _ => true | _ => false end.

Definition is_forever (e : effect) : bool :=
  match e with SyncForever _ _ => true | _ => false end.

Definition syncs (t : list effect) : nat := length (List.filter is_sync t).
Definition joins (t : list effect) : nat := length (List.filter is_join t).
Definition forevers (t : list effect) : nat := length (List.filter is_forever t).

Definition is_close (e : effect) : bool :=
  match e with Close => true | _ => false end.

Definition is_sleep (e : effect) : bool :=
  match e with Sleep _ => true | _ => false end.

Definition is_lookup (e : effect) : bool :=
  match e with RoomGetEvent _ _ => true | _ => false end.

Definition closes (t : list effect) : nat := length (List.filter is_close t).
Definition sleeps (t : list effect) : nat := length (List.filter is_sleep t).
Definition lookups (t : list effect) : nat := length (List.filter is_lookup t).

(** ** The monad of the coroutines *)

(** A run returns, raises, or is cut off when the fuel given to a
    [while True] loop is used up. *)
Inductive outcome (A : Type) : Type :=
| Returned (a : A)
| Raised (e : exn)
| OutOfFuel.
Arguments Returned {A} a.
Arguments Raised {A} e.
Arguments OutOfFuel {A}.

Definition M (A : Type) : Type := World -> outcome A * World.

Definition ret {A} (a : A) : M A := fun w => (Returned a, w).

Definition bind {A B} (m : M A) (k : A -> M B) : M B :=
  fun w =>
    match m w with
    | (Returned a, w') => k a w'
    | (Raised e, w') => (Raised e, w')
    | (OutOfFuel, w') => (OutOfFuel, w')
    end.

Declare Scope py_scope.
Delimit Scope py_scope with py.
Notation "x <- m ;; k" := (bind m (fun x => k))
  (at level 100, m at next level, right associativity) : py_scope.
Notation "m ;; k" := (bind m (fun _ => k))
  (at level 100, right associativity) : py_scope.
Local Open Scope py_scope.

Definition raise {A} (e : exn) : M A := fun w => (Raised e, w).
Definition out_of_fuel {A} : M A := fun w => (OutOfFuel, w).

Definition lift {A} (r : result A) : M A :=
  match r with
  | Ok a => ret a
  | Err e => raise e
  end.

Definition emit (e : effect) : M unit := fun w => (Returned tt, emit_to w e).

Definition log (lv : level) (msg : log_value) (args : list log_value) : M unit :=
  emit (Log lv msg args).

(** [client.rooms] *)
Definition client_rooms : M (gmap string MatrixRoom) :=
  fun w => (Returned (rooms w), w).

(** [try: body except ...: handler].  [handler e] is [None] when no
    [except] clause matches [e]. *)
Definition try_except {A} (body : M A) (handler : exn -> option (M A)) : M A :=
  fun w =>
    match body w with
    | (Raised e, w') =>
        match handler e with
        | Some h => h w'
        | None => (Raised e, w')
        end
    | r => r
    end.

(** [try: body finally: cleanup] *)
Definition try_finally {A} (body : M A) (cleanup : M unit) : M A :=
  fun w =>
    match body w with
    | (r, w') =>
        match cleanup w' with
        | (Returned _, w'') => (r, w'')
        | (Raised e, w'') => (Raised e, w'')
        | (OutOfFuel, w'') => (OutOfFuel, w'')
        end
    end.

(** [for x in l: body x] *)
Fixpoint for_each {A} (l : list A) (body : A -> M unit) : M unit :=
  match l with
  | [] => ret tt
  | x :: l' => body x ;; for_each l' body
  end.

(** ** Text of the notice *)

(** The glyph of line 83, U+2B50 U+FE0F, as its six UTF-8 bytes. *)
Definition star_glyph : string :=
  String "226" (String "173" (String "144"
    (String "239" (String "184" (String "143" EmptyString))))).

Definition dquote : string := String "034" EmptyString.

(** The trailing link of the f-string of line 98. *)
Definition deep_link (room_id event_id : string) : string :=
  "[->](https://matrix.to/#/" +:+ room_id +:+ "/" +:+ event_id +:+ "?via=lant.uk)".

(** The whole f-string of line 98. *)
Definition notice_text (room : MatrixRoom) (pill body event_id : string) : string :=
  "<a href=" +:+ dquote +:+ "https://matrix.to/#/" +:+ room_id room +:+ dquote +:+ ">"
    +:+ display_name room +:+ "</a>—" +:+ pill +:+ ": " +:+ body +:+ " "
    +:+ deep_link (room_id room) event_id.

Arguments deep_link : simpl never.
Arguments notice_text : simpl never.

Definition is_megolm (e : RoomEvent) : bool :=
  match e with TargetMegolm _ _ => true | _ => false end.

Definition sender_of (e : RoomEvent) : string :=
  match e with
  | TargetMegolm s _ | TargetMessage s _ _ | TargetOther s _ => s
  end.

Definition event_id_of (e : RoomEvent) : string :=
  match e with
  | TargetMegolm _ i | TargetMessage _ i _ | TargetOther _ i => i
  end.

(** [e.body] *)
Definition body_of (e : RoomEvent) : result string :=
  match e with
  | TargetMessage _ _ b => Ok b
  | _ => Err (AttributeError "body")
  end.

(** [event.source.get("content", {}).get("m.relates_to", {})] *)
Definition relates_to (source : gmap string json) : result json :=
  match py_get (JDict source) "content" (JDict ∅) with
  | Ok content => py_get content "m.relates_to" (JDict ∅)
  | Err e => Err e
  end.

(** Lines 79-81: [....get("key")] *)
Definition reaction_content (source : gmap string json) : result json :=
  match relates_to source with
  | Ok rel => py_get rel "key" JNull
  | Err e => Err e
  end.

(** [event.sender] and [event.source] *)
Definition event_sender (e : Event) : string :=
  match e with
  | Unknown ev => ev_sender ev
  | Megolm s _ => s
  end.

Definition event_source (e : Event) : gmap string json :=
  match e with
  | Unknown ev => ev_source ev
  | Megolm _ src => src
  end.

(** Outcome of one pass through the body of a [while True] loop. *)
Inductive flow : Type := Done | Again.

(** ** [star_bot/callbacks.py] *)

Section Callbacks.

(** [config.star_room_id], and [config.user_id], which [main] passes to
    the client as [client.user]. *)
Variable star_room_id : string.
Variable user_id : string.

(** [star_bot.chat_functions.make_pill] *)
Variable make_pill : string -> string.

(** The homeserver: the answer to [room_get_event], and the answers to
    the n-th call of [send_text_to_room] and of [client.sync]. *)
Variable room_get_event : string -> json -> get_event_response.
Variable send_text_to_room : nat -> string -> string -> bool -> send_outcome.
Variable sync : nat -> sync_outcome.

Definition call_room_get_event (room : string) (event_id : json)
  : M get_event_response :=
  emit (RoomGetEvent room event_id) ;; ret (room_get_event room event_id).

Definition call_send_text_to_room (room message : string) (notice : bool)
  : M send_result :=
  fun w =>
    let res := send_text_to_room (length (sends (trace w))) room message notice in
    let w' := emit_to w (SendText room message notice res) in
    match res with
    | SendReturns r => (Returned r, w')
    | SendRaises e => (Raised e, w')
    end.

Definition call_sync : M unit :=
  fun w =>
    match sync (syncs (trace w)) with
    | SyncDone rooms' => (Returned tt, {| rooms := rooms'; trace := trace w ++ [Sync] |})
    | SyncRaises e => (Raised e, emit_to w Sync)
    end.

(** Lines 87-105, the [while True] loop of [_reaction]. *)
Fixpoint delivery_loop (fuel : nat) (room : MatrixRoom)
    (reacted_to_event : RoomEvent) (pill : string) : M unit :=
  match fuel with
  | O => out_of_fuel
  | S fuel' =>
      log INFO (LText "Are we in the room?") [] ;;
      joined <- client_rooms ;;
      log INFO (LBool (bool_decide (is_Some (joined !! star_room_id)))) [] ;;
      match joined !! star_room_id with
      | None => log INFO (LText "We weren't in the room, bailing") []
      | Some star_room =>
          log INFO (LRoom star_room) [] ;;
          next <- try_except
            (body <- lift (body_of reacted_to_event) ;;
             result <- call_send_text_to_room star_room_id
               (notice_text room pill body (event_id_of reacted_to_event)) false ;;
             log INFO (LSend result) [] ;;
             ret Done)
            (fun e =>
               match e with
               | LocalProtocolError _ =>
                   Some (log ERROR (LExn e) [] ;; call_sync ;; ret Again)
               | _ => None
               end) ;;
          match next with
          | Done => ret tt
          | Again => delivery_loop fuel' room reacted_to_event pill
          end
      end
  end.

(** Lines 40-105. *)
Definition _reaction (fuel : nat) (room : MatrixRoom) (event : Event)
    (reacted_to_id : json) : M unit :=
  match event with
  | Megolm _ _ =>
      log DEBUG (LText "The event wasn't decrypted for some raisin") []
  | Unknown ev =>
      log DEBUG (LText ("Got reaction to " +:+ room_id room +:+ " from "
                        +:+ ev_sender ev +:+ ".")) [] ;;
      event_response <- call_room_get_event (room_id room) reacted_to_id ;;
      match event_response with
      | RoomGetEventError _ =>
          log WARNING (LText "Error getting event that was reacted to (%s)")
            [LJson reacted_to_id]
      | RoomGetEventResponse reacted_to_event =>
          if is_megolm reacted_to_event then
            log DEBUG (LText "The reacted to event wasn't decrypted for some raisin") []
          else if negb (bool_decide (ev_sender ev = user_id)) then ret tt
          else if bool_decide (room_id room = star_room_id) then ret tt
          else
            key <- lift (reaction_content (ev_source ev)) ;;
            if negb (py_eq_str key star_glyph) then ret tt
            else
              let pill := make_pill (sender_of reacted_to_event) in
              delivery_loop fuel room reacted_to_event pill
      end
  end.

(** Lines 108-130, with the handler that line 124 awaits as an argument. *)
Definition unknown_with (handler : MatrixRoom -> Event -> json -> M unit)
    (room : MatrixRoom) (event : UnknownEvent) : M unit :=
  dispatched <-
    (if bool_decide (ev_type event = "m.reaction") then
       relation_dict <- lift (relates_to (ev_source event)) ;;
       reacted_to <- lift (py_get relation_dict "event_id" JNull) ;;
       if truthy reacted_to then
         rel_type <- lift (py_get relation_dict "rel_type" JNull) ;;
         if py_eq_str rel_type "m.annotation" then
           handler room (Unknown event) reacted_to ;; ret true
         else ret false
       else ret false
     else ret false) ;;
  if dispatched : bool then ret tt
  else
    log DEBUG (LText ("Got unknown event with type to " +:+ ev_type event +:+ " from "
                      +:+ ev_sender event +:+ " in " +:+ room_id room +:+ ".")) [].

Definition unknown (fuel : nat) : MatrixRoom -> UnknownEvent -> M unit :=
  unknown_with (_reaction fuel).

(** The client awaits the handler once for each reaction it receives. *)
Definition react_to_all (fuel : nat) (l : list (MatrixRoom * Event * json)) : M unit :=
  for_each l (fun r => _reaction fuel r.1.1 r.1.2 r.2).

End Callbacks.

(** ** [star_bot/main.py] *)

(** [main.py] binds no name [room]: it is neither a local of [main] nor
    a global of the module, so evaluating it raises [NameError]. *)
Definition main_room : result MatrixRoom := Err (NameError "room").

Section Main.

Variable star_room_id : string.
Variable user_id : string.

(** Lines 73-101: restoring or opening the session.  [true] when control
    reaches line 105, [false] when [main] executes [return False]. *)
Variable authenticate : M bool.

(** The answers to the n-th call of [client.join] and of
    [client.sync_forever]. *)
Variable join : nat -> string -> join_result.
Variable sync_forever : nat -> forever_outcome.

(** Joining does not touch [client.rooms]; only a sync does. *)
Definition call_join (room : string) : M join_result :=
  fun w => (Returned (join (joins (trace w)) room), emit_to w (Join room)).

Definition call_sync_forever (timeout : Z) (full_state : bool) : M unit :=
  fun w =>
    let w' := emit_to w (SyncForever timeout full_state) in
    match sync_forever (forevers (trace w)) with
    | ForeverRaises e => (Raised e, w')
    | ForeverReturns => (Returned tt, w')
    end.

(** Lines 113-124, the body of [for attempt in range(3)]. *)
Definition join_attempt (attempt : nat) : M unit :=
  log INFO (LText ("attempt " +:+ pretty attempt)) [] ;;
  result <- call_join star_room_id ;;
  match result with
  | JoinError message =>
      room <- lift main_room ;;
      log ERROR (LText ("Error joining room " +:+ room_id room +:+ " (attempt %d): %s"))
        [LNat attempt; LText message]
  | JoinResponse _ =>
      log INFO (LJoin result) [] ;;
      log INFO (LText "We're in the room (aside: we're not)") []
  end.

(** Lines 111-126. *)
Definition join_star_room : M unit :=
  log INFO (LText "Joining star room") [] ;;
  joined <- client_rooms ;;
  match joined !! star_room_id with
  | None => for_each (seq 0 3) join_attempt
  | Some _ => log INFO (LText "We're already joined") []
  end.

(** Lines 73-135, the body of the [try].  [Some b] when it executes
    [return b]. *)
Definition session : M (option bool) :=
  ok <- authenticate ;;
  if ok : bool then
    log INFO (LText ("Logged in as " +:+ user_id)) [] ;;
    join_star_room ;;
    call_sync_forever 9000000 true ;;
    ret None
  else ret (Some false).

(** Lines 71-144, the reconnect loop. *)
Fixpoint main (fuel : nat) : M bool :=
  match fuel with
  | O => out_of_fuel
  | S fuel' =>
      r <- try_finally
             (try_except session
                (fun e =>
                   match e with
                   | ClientConnectionError | ServerDisconnectedError =>
                       Some (log WARNING
                               (LText "Unable to connect to homeserver, retrying in 15s...") [] ;;
                             emit (Sleep 15) ;;
                             ret None)
                   | _ => None
                   end))
             (emit Close) ;;
      match r with
      | Some b => ret b
      | None => main fuel'
      end
  end.

End Main.

(** ** Searching and parsing strings *)

(** [s.startswith(p)] *)
Fixpoint starts_with (p s : string) : bool :=
  match p, s with
  | EmptyString, _ => true
  | String a p', String b s' => bool_decide (a = b) && starts_with p' s'
  | String _ _, EmptyString => false
  end.

(** [sub in s] *)
Fixpoint str_contains (sub s : string) : bool :=
  starts_with sub s ||
  match s with
  | EmptyString => false
  | String _ s' => str_contains sub s'
  end.

(** [c in s] for one byte [c]. *)
Fixpoint has_char (c : ascii) (s : string) : bool :=
  match s with
  | EmptyString => false
  | String a s' => bool_decide (a = c) || has_char c s'
  end.

(** [s.removeprefix(p)], failing when [p] is not a prefix. *)
Fixpoint strip_prefix (p s : string) : option string :=
  match p, s with
  | EmptyString, _ => Some s
  | String a p', String b s' => if bool_decide (a = b) then strip_prefix p' s' else None
  | String _ _, EmptyString => None
  end.

(** [s.split(c, 1)], failing when [c] does not occur. *)
Fixpoint split_at (c : ascii) (s : string) : option (string * string) :=
  match s with
  | EmptyString => None
  | String a s' =>
      if bool_decide (a = c) then Some (EmptyString, s')
      else match split_at c s' with
           | Some (l, r) => Some (String a l, r)
           | None => None
           end
  end.

(** Modelled from the spec: the repository has no reader of the links it
    writes.  This one follows the grammar that the spec gives for the
    trailing link,
    [[->](<homeserver-base>/#/<room_id>/<event_id>?via=<fixed-routing-host>)],
    with the base and the host that line 98 writes: the room id runs up to
    the first slash, the event id up to the first question mark. *)
Definition parse_deep_link (link : string) : option (string * string) :=
  match strip_prefix "[->](https://matrix.to/#/" link with
  | None => None
  | Some rest =>
      match split_at "/" rest with
      | None => None
      | Some (room_id, rest') =>
          match split_at "?" rest' with
          | None => None
          | Some (event_id, tail) =>
              if bool_decide (tail = "via=lant.uk)") then Some (room_id, event_id)
              else None
          end
      end
  end.

(** ** A small deployment, used to run the model *)

Module Demo.

Definition star_room_id : string := "!stars:lant.uk".
Definition user_id : string := "@bot:lant.uk".

Definition origin : MatrixRoom :=
  {| room_id := "!lobby:lant.uk"; display_name := "Lobby" |}.
Definition star_room : MatrixRoom :=
  {| room_id := star_room_id; display_name := "Stars" |}.

(** A stand-in for [make_pill] when the model is run. *)
Definition make_pill (user : string) : string :=
  "<a href=" +:+ dquote +:+ "https://matrix.to/#/" +:+ user +:+ dquote +:+ ">"
    +:+ user +:+ "</a>".

Definition relation (key : list (string * json)) : json :=
  JDict (list_to_map
           ([("event_id", JStr "$target"); ("rel_type", JStr "m.annotation")] ++ key)).

Definition source_of (rel : json) : gmap string json :=
  {[ "content" := JDict {[ "m.relates_to" := rel ]} ]}.

(** A star reaction by the bot, one by somebody else, a thumbs-up (U+1F44D)
    by the bot, and a reaction without a key. *)
Definition star : UnknownEvent :=
  {| ev_type := "m.reaction"; ev_sender := user_id;
     ev_source := source_of (relation [("key", JStr star_glyph)]) |}.
Definition star_of_alice : UnknownEvent :=
  {| ev_type := "m.reaction"; ev_sender := "@alice:lant.uk";
     ev_source := source_of (relation [("key", JStr star_glyph)]) |}.
Definition thumbs_up : UnknownEvent :=
  {| ev_type := "m.reaction"; ev_sender := user_id;
     ev_source := source_of (relation [("key", JStr "👍")]) |}.
(** U+2B50 alone, without the variation selector. *)
Definition bare_star : UnknownEvent :=
  {| ev_type := "m.reaction"; ev_sender := user_id;
     ev_source := source_of (relation
       [("key", JStr (String "226" (String "173" (String "144" EmptyString))))]) |}.
Definition keyless : UnknownEvent :=
  {| ev_type := "m.reaction"; ev_sender := user_id;
     ev_source := source_of (relation []) |}.

(** Annotations that the router must not pass on. *)
Definition no_target : UnknownEvent :=
  {| ev_type := "m.reaction"; ev_sender := user_id;
     ev_source := source_of (JDict {[ "rel_type" := JStr "m.annotation" ]}) |}.
Definition a_reply : UnknownEvent :=
  {| ev_type := "m.reaction"; ev_sender := user_id;
     ev_source := source_of (JDict (list_to_map
       [("event_id", JStr "$target"); ("rel_type", JStr "m.reference")])) |}.

Definition target : RoomEvent :=
  TargetMessage "@alice:lant.uk" "$target" "hello world".

Definition room_get_event (room : string) (event_id : json) : get_event_response :=
  RoomGetEventResponse target.

(** A homeserver that takes every message, and one whose client lacks
    the olm session for the first. *)
Definition send_ok (n : nat) (room message : string) (notice : bool) : send_outcome :=
  SendReturns (RoomSendResponse "$notice").
Definition send_flaky (n : nat) (room message : string) (notice : bool) : send_outcome :=
  match n with
  | O => SendRaises (LocalProtocolError "No such room")
  | S _ => SendReturns (RoomSendResponse "$notice")
  end.

Definition joined : gmap string MatrixRoom := {[ star_room_id := star_room ]}.
Definition sync (n : nat) : sync_outcome := SyncDone joined.

Definition run_reaction send (event : UnknownEvent) (w : World) : outcome unit * World :=
  _reaction star_room_id user_id make_pill room_get_event send sync 2
    origin (Unknown event) (JStr "$target") w.

Definition w_joined : World := {| rooms := joined; trace := [] |}.
Definition w_away : World := {| rooms := ∅; trace := [] |}.

(** Join answers: refused every time, and accepted every time. *)
Definition join_refused (n : nat) (room : string) : join_result :=
  JoinError "You are not invited to this room.".
Definition join_accepted (n : nat) (room : string) : join_result :=
  JoinResponse room.
(** Accepted once, then refused for joining too often. *)
Definition join_limited (n : nat) (room : string) : join_result :=
  match n with
  | O => JoinResponse room
  | S _ => JoinError "Too Many Requests"
  end.
Definition sync_forever (n : nat) : forever_outcome :=
  ForeverRaises ServerDisconnectedError.

(** More answers of the homeserver: an error response, a dropped
    connection, a client that never gets its olm session, and one that gets
    it at the fourth attempt. *)
Definition send_rejected (n : nat) (room message : string) (notice : bool) : send_outcome :=
  SendReturns (RoomSendError "M_FORBIDDEN").
Definition send_disconnected (n : nat) (room message : string) (notice : bool)
  : send_outcome :=
  SendRaises ServerDisconnectedError.
Definition send_never (n : nat) (room message : string) (notice : bool) : send_outcome :=
  SendRaises (LocalProtocolError "No such room").
Definition send_fourth (n : nat) (room message : string) (notice : bool) : send_outcome :=
  if Nat.ltb n 3 then SendRaises (LocalProtocolError "No such room")
  else SendReturns (RoomSendResponse "$notice").

Definition sync_offline (n : nat) : sync_outcome := SyncRaises ClientConnectionError.
Definition sync_left (n : nat) : sync_outcome := SyncDone ∅.

Definition room_get_event_missing (room : string) (event_id : json)
  : get_event_response :=
  RoomGetEventError "M_NOT_FOUND".
Definition room_get_event_encrypted (room : string) (event_id : json)
  : get_event_response :=
  RoomGetEventResponse (TargetMegolm "@alice:lant.uk" "$target").

Definition notice : string :=
  notice_text origin (make_pill "@alice:lant.uk") "hello world" "$target".

Definition run_loop send sync_answers (fuel : nat) (w : World) : outcome unit * World :=
  delivery_loop star_room_id send sync_answers fuel origin target
    (make_pill "@alice:lant.uk") w.

(** An undecrypted star of the bot, and reactions with an empty target id,
    with a relation that is a string, and of another event type. *)
Definition encrypted_star : Event :=
  Megolm user_id (source_of (relation [("key", JStr star_glyph)])).
Definition empty_target : UnknownEvent :=
  {| ev_type := "m.reaction"; ev_sender := user_id;
     ev_source := source_of (JDict (list_to_map
       [("event_id", JStr EmptyString); ("rel_type", JStr "m.annotation")])) |}.
Definition string_relation : UnknownEvent :=
  {| ev_type := "m.reaction"; ev_sender := user_id;
     ev_source := source_of (JStr "$target") |}.
Definition sticker : UnknownEvent :=
  {| ev_type := "m.sticker"; ev_sender := user_id;
     ev_source := {[ "content" := JStr "not a dictionary" ]} |}.

Definition run_unknown send (event : UnknownEvent) (w : World) : outcome unit * World :=
  unknown star_room_id user_id make_pill room_get_event send sync 2 origin event w.

(** Sessions: the connection drops, [sync_forever] is stopped, or it fails
    with an error that is no connection error. *)
Definition sync_forever_stopped (n : nat) : forever_outcome := ForeverReturns.
Definition sync_forever_broken (n : nat) : forever_outcome :=
  ForeverRaises (LocalProtocolError "Not logged in.").

Definition run_main (authenticate : M bool) forever (fuel : nat) (w : World)
  : outcome bool * World :=
  main star_room_id user_id authenticate join_accepted forever fuel w.

End Demo.

(** * Properties *)

(** ** Traces *)

Lemma emit_to_emits w e : emit_to w e = emits w [e].
Proof. reflexivity. Qed.

Lemma emits_emits w l1 l2 : emits (emits w l1) l2 = emits w (l1 ++ l2).
Proof. unfold emits; simpl. by rewrite <- app_assoc. Qed.

Lemma emits_nil w : emits w [] = w.
Proof. destruct w; unfold emits; simpl. by rewrite app_nil_r. Qed.

Lemma sends_app t1 t2 : sends (t1 ++ t2) = sends t1 ++ sends t2.
Proof. apply omap_app. Qed.

Lemma delivered_app t1 t2 : delivered (t1 ++ t2) = delivered t1 ++ delivered t2.
Proof. unfold delivered. by rewrite sends_app, List.filter_app. Qed.

Lemma syncs_app t1 t2 : syncs (t1 ++ t2) = syncs t1 + syncs t2.
Proof. unfold syncs. by rewrite List.filter_app, length_app. Qed.

Lemma joins_app t1 t2 : joins (t1 ++ t2) = joins t1 + joins t2.
Proof. unfold joins. by rewrite List.filter_app, length_app. Qed.

Lemma forevers_app t1 t2 : forevers (t1 ++ t2) = forevers t1 + forevers t2.
Proof. unfold forevers. by rewrite List.filter_app, length_app. Qed.

Lemma bind_returned {A B} (m : M A) (k : A -> M B) w a w' :
  m w = (Returned a, w') -> bind m k w = k a w'.
Proof. intros H. unfold bind. by rewrite H. Qed.

Lemma bind_raised {A B} (m : M A) (k : A -> M B) w e w' :
  m w = (Raised e, w') -> bind m k w = (Raised e, w').
Proof. intros H. unfold bind. by rewrite H. Qed.

(** Unfolds one monadic step at a time and keeps the world in the shape
    [emits w l]. *)
Ltac step :=
  unfold bind, log, emit, ret, raise, lift, client_rooms, try_except,
    call_room_get_event, call_send_text_to_room, call_sync, call_join,
    call_sync_forever; simpl;
  rewrite ?emit_to_emits, ?emits_emits; simpl.

(** Brings the index of an oracle call back to a count over the trace
    the run started from. *)
Ltac recount :=
  rewrite ?sends_app, ?syncs_app, ?joins_app, ?forevers_app; simpl;
  rewrite ?app_nil_r, ?Nat.add_0_r.

(** ** The delivery loop *)

Section LoopFacts.

Variable star_room_id : string.
Variable send_text_to_room : nat -> string -> string -> bool -> send_outcome.
Variable sync : nat -> sync_outcome.

Local Abbreviation loop := (delivery_loop star_room_id send_text_to_room sync).

(** Not joined: the loop is left at once, with three log lines. *)
Lemma loop_not_joined fuel room target pill w :
  rooms w !! star_room_id = None ->
  loop (S fuel) room target pill w =
    (Returned tt,
     emits w [Log INFO (LText "Are we in the room?") [];
              Log INFO (LBool false) [];
              Log INFO (LText "We weren't in the room, bailing") []]).
Proof.
  intros Hout. simpl. step. rewrite Hout. by step.
Qed.

(** Joined, and [send_text_to_room] returns: one attempt, then the
    handler returns. *)
Lemma loop_send_returns fuel room target pill w star_room body res :
  rooms w !! star_room_id = Some star_room ->
  body_of target = Ok body ->
  send_text_to_room (length (sends (trace w))) star_room_id
    (notice_text room pill body (event_id_of target)) false = SendReturns res ->
  loop (S fuel) room target pill w =
    (Returned tt,
     emits w [Log INFO (LText "Are we in the room?") [];
              Log INFO (LBool true) [];
              Log INFO (LRoom star_room) [];
              SendText star_room_id
                (notice_text room pill body (event_id_of target)) false
                (SendReturns res);
              Log INFO (LSend res) []]).
Proof.
  intros Hin Hbody Hsend. simpl. step. rewrite Hin, Hbody. step.
  recount. rewrite Hsend. by step.
Qed.

(** Joined, and [send_text_to_room] raises [LocalProtocolError]: the
    error is logged, the client syncs, and the loop starts over in the
    world that the sync left. *)
Lemma loop_send_local_protocol_error fuel room target pill w star_room body msg rooms' :
  rooms w !! star_room_id = Some star_room ->
  body_of target = Ok body ->
  send_text_to_room (length (sends (trace w))) star_room_id
    (notice_text room pill body (event_id_of target)) false
    = SendRaises (LocalProtocolError msg) ->
  sync (syncs (trace w)) = SyncDone rooms' ->
  loop (S fuel) room target pill w =
    loop fuel room target pill
      {| rooms := rooms';
         trace := trace w ++
           [Log INFO (LText "Are we in the room?") [];
            Log INFO (LBool true) [];
            Log INFO (LRoom star_room) [];
            SendText star_room_id
              (notice_text room pill body (event_id_of target)) false
              (SendRaises (LocalProtocolError msg));
            Log ERROR (LExn (LocalProtocolError msg)) [];
            Sync] |}.
Proof.
  intros Hin Hbody Hsend Hsync. simpl. step. rewrite Hin, Hbody. step.
  recount. rewrite Hsend. step.
  recount. rewrite Hsync. step.
  by rewrite <- !app_assoc.
Qed.

(** Any other exception of [send_text_to_room] leaves the handler. *)
Lemma loop_send_raises_other fuel room target pill w star_room body e :
  rooms w !! star_room_id = Some star_room ->
  body_of target = Ok body ->
  send_text_to_room (length (sends (trace w))) star_room_id
    (notice_text room pill body (event_id_of target)) false = SendRaises e ->
  (forall msg, e <> LocalProtocolError msg) ->
  fst (loop (S fuel) room target pill w) = Raised e.
Proof.
  intros Hin Hbody Hsend Hother. simpl. step. rewrite Hin, Hbody. step.
  recount. rewrite Hsend. step.
  destruct e; try done. by destruct (Hother msg).
Qed.

End LoopFacts.

(** ** The reaction handler *)

Lemma py_eq_str_true v s : py_eq_str v s = true <-> v = JStr s.
Proof.
  destruct v; simpl; try (split; [discriminate | congruence]).
  rewrite bool_decide_eq_true. split; congruence.
Qed.

Section HandlerFacts.

Variable star_room_id : string.
Variable user_id : string.
Variable make_pill : string -> string.
Variable room_get_event : string -> json -> get_event_response.
Variable send_text_to_room : nat -> string -> string -> bool -> send_outcome.
Variable sync : nat -> sync_outcome.

Local Abbreviation loop := (delivery_loop star_room_id send_text_to_room sync).
Local Abbreviation handler :=
  (_reaction star_room_id user_id make_pill room_get_event send_text_to_room sync).

(** A reaction that passes every filter reaches the delivery loop after
    one log line and the lookup of its target. *)
Lemma reaction_accepted fuel room ev reacted_to_id target w :
  room_get_event (room_id room) reacted_to_id = RoomGetEventResponse target ->
  is_megolm target = false ->
  ev_sender ev = user_id ->
  room_id room <> star_room_id ->
  reaction_content (ev_source ev) = Ok (JStr star_glyph) ->
  handler fuel room (Unknown ev) reacted_to_id w =
    loop fuel room target (make_pill (sender_of target))
      (emits w [Log DEBUG (LText ("Got reaction to " +:+ room_id room +:+ " from "
                                  +:+ ev_sender ev +:+ ".")) [];
                RoomGetEvent (room_id room) reacted_to_id]).
Proof.
  intros Hget Hclear Hme Hroom Hkey. unfold _reaction. step.
  rewrite Hget, Hclear.
  repeat case_bool_decide; try done; simpl.
  rewrite Hkey. by step.
Qed.

(** A reaction stopped by one of the filters sends nothing. *)
Lemma reaction_filtered fuel room event reacted_to_id w :
  event_sender event <> user_id \/
  room_id room = star_room_id \/
  reaction_content (event_source event) <> Ok (JStr star_glyph) ->
  let r := handler fuel room event reacted_to_id w in
  sends (trace r.2) = sends (trace w) /\
  syncs (trace r.2) = syncs (trace w) /\
  rooms r.2 = rooms w /\
  (r.1 = Returned tt \/
   exists attr, r.1 = Raised (AttributeError attr) /\
                reaction_content (event_source event) = Err (AttributeError attr)).
Proof.
  intros Hstop. destruct event as [ev|s src]; simpl in *.
  2: { step. recount. auto. }
  unfold _reaction. step.
  destruct (room_get_event _ _) as [target|msg]; step.
  2: { recount. auto. }
  destruct (is_megolm target); step.
  { recount. auto. }
  case_bool_decide as Hme; simpl.
  2: { recount. auto. }
  case_bool_decide as Hroom; simpl.
  { recount. auto. }
  destruct Hstop as [?|[?|Hkey]]; [done..|].
  destruct (reaction_content (ev_source ev)) as [key|e] eqn:Hrc; step.
  - destruct (py_eq_str key star_glyph) eqn:Heq; simpl.
    + apply py_eq_str_true in Heq. congruence.
    + recount. auto.
  - recount. repeat split; try done. right.
    unfold reaction_content, relates_to, py_get in Hrc.
    repeat case_match; simplify_eq; eauto.
Qed.

End HandlerFacts.

(** ** Strings *)

Lemma append_cons a (s t : string) : String a s +:+ t = String a (s +:+ t).
Proof. reflexivity. Qed.

Lemma append_nil (s : string) : EmptyString +:+ s = s.
Proof. reflexivity. Qed.

Lemma append_assoc (a b c : string) : (a +:+ b) +:+ c = a +:+ (b +:+ c).
Proof.
  induction a as [|x a IH]; [done|].
  by rewrite !append_cons, IH.
Qed.

Lemma starts_with_append p s : starts_with p (p +:+ s) = true.
Proof.
  induction p as [|a p IH]; [done|].
  rewrite append_cons. simpl. by rewrite bool_decide_eq_true_2.
Qed.

Lemma starts_with_inv p s : starts_with p s = true -> exists post, s = p +:+ post.
Proof.
  revert s. induction p as [|a p IH]; intros s; simpl.
  - exists s. by rewrite append_nil.
  - destruct s as [|b s]; [discriminate|].
    intros [Hab Hps]%andb_true_iff. apply bool_decide_eq_true in Hab as ->.
    destruct (IH _ Hps) as [post ->]. exists post. by rewrite append_cons.
Qed.

Lemma str_contains_here sub post : str_contains sub (sub +:+ post) = true.
Proof.
  destruct (sub +:+ post) eqn:E; simpl; rewrite <- E, starts_with_append; done.
Qed.

Lemma str_contains_skip sub pre s :
  str_contains sub s = true -> str_contains sub (pre +:+ s) = true.
Proof.
  intros H. induction pre as [|a pre IH]; [done|].
  rewrite append_cons. simpl. rewrite IH. apply orb_true_r.
Qed.

(** [str_contains] finds exactly the substrings. *)
Lemma str_contains_spec sub s :
  str_contains sub s = true <-> exists pre post, s = pre +:+ sub +:+ post.
Proof.
  split.
  - induction s as [|a s IH]; simpl.
    + rewrite orb_false_r. intros [post ->]%starts_with_inv.
      exists EmptyString, post. done.
    + intros [H|H]%orb_true_iff.
      * apply starts_with_inv in H as [post ->]. by exists EmptyString, post.
      * destruct (IH H) as (pre & post & ->). by exists (String a pre), post.
  - intros (pre & post & ->). apply str_contains_skip, str_contains_here.
Qed.

Lemma append_nil_r (s : string) : s +:+ EmptyString = s.
Proof. induction s as [|a s IH]; [done|]. by rewrite append_cons, IH. Qed.

Lemma str_contains_self s : str_contains s s = true.
Proof.
  rewrite <- (append_nil_r s) at 2. apply str_contains_here.
Qed.

(** Finds one field of an f-string among the pieces around it. *)
Ltac find_piece :=
  first [ apply str_contains_here
        | apply str_contains_self
        | apply str_contains_skip; find_piece ].

Lemma notice_has_display_name room pill body event_id :
  str_contains (display_name room) (notice_text room pill body event_id) = true.
Proof. unfold notice_text. find_piece. Qed.

Lemma notice_has_pill room pill body event_id :
  str_contains pill (notice_text room pill body event_id) = true.
Proof. unfold notice_text. find_piece. Qed.

Lemma notice_has_body room pill body event_id :
  str_contains body (notice_text room pill body event_id) = true.
Proof. unfold notice_text. find_piece. Qed.

Lemma notice_ends_with_link room pill body event_id :
  exists front,
    notice_text room pill body event_id = front +:+ deep_link (room_id room) event_id.
Proof.
  unfold notice_text. eexists. rewrite <- !append_assoc. reflexivity.
Qed.

Lemma notice_has_link room pill body event_id :
  str_contains (deep_link (room_id room) event_id)
    (notice_text room pill body event_id) = true.
Proof. unfold notice_text. find_piece. Qed.

Lemma deep_link_has_room_id room_id event_id :
  str_contains room_id (deep_link room_id event_id) = true.
Proof. unfold deep_link. find_piece. Qed.

Lemma deep_link_has_event_id room_id event_id :
  str_contains event_id (deep_link room_id event_id) = true.
Proof. unfold deep_link. find_piece. Qed.

Lemma strip_prefix_append p s : strip_prefix p (p +:+ s) = Some s.
Proof.
  induction p as [|a p IH]; [by destruct s|].
  rewrite append_cons. simpl. by rewrite bool_decide_eq_true_2.
Qed.

Lemma split_at_first c l r :
  has_char c l = false -> split_at c (l +:+ String c r) = Some (l, r).
Proof.
  induction l as [|a l IH].
  - intros _. rewrite append_nil. simpl. by rewrite bool_decide_eq_true_2.
  - intros H. simpl in H. apply orb_false_iff in H as [Hac Hl].
    rewrite append_cons. simpl. rewrite Hac. by rewrite IH.
Qed.

(** ** Delivery of a starred message *)

Section Delivery.

Variable star_room_id : string.
Variable user_id : string.
Variable make_pill : string -> string.
Variable room_get_event : string -> json -> get_event_response.
Variable send_text_to_room : nat -> string -> string -> bool -> send_outcome.
Variable sync : nat -> sync_outcome.

Local Abbreviation loop := (delivery_loop star_room_id send_text_to_room sync).
Local Abbreviation handler :=
  (_reaction star_room_id user_id make_pill room_get_event send_text_to_room sync).

(** C1.  A star reaction of the bot itself, in a room other than the
    star room, on a message that was fetched and is readable, while the
    star room is joined and the first send is acknowledged: the handler
    returns having made exactly one send attempt, to the star room, not as
    a notice-type message, and the text sent contains the display name of
    the origin room, the pill of the sender of the target, the body of the
    target, and the deep link, which contains the id of the origin room
    and the id of the target. *)
Theorem star_reaction_sends_one_notice fuel room ev reacted_to_id
    sender event_id body star_room ack w :
  room_get_event (room_id room) reacted_to_id
    = RoomGetEventResponse (TargetMessage sender event_id body) ->
  ev_sender ev = user_id ->
  room_id room <> star_room_id ->
  reaction_content (ev_source ev) = Ok (JStr star_glyph) ->
  rooms w !! star_room_id = Some star_room ->
  send_text_to_room (length (sends (trace w))) star_room_id
    (notice_text room (make_pill sender) body event_id) false
    = SendReturns (RoomSendResponse ack) ->
  (handler (S fuel) room (Unknown ev) reacted_to_id w).1 = Returned tt /\
  sends (trace (handler (S fuel) room (Unknown ev) reacted_to_id w).2)
    = sends (trace w) ++
      [(star_room_id, notice_text room (make_pill sender) body event_id, false,
        SendReturns (RoomSendResponse ack))] /\
  str_contains (display_name room)
    (notice_text room (make_pill sender) body event_id) = true /\
  str_contains (make_pill sender)
    (notice_text room (make_pill sender) body event_id) = true /\
  str_contains body (notice_text room (make_pill sender) body event_id) = true /\
  str_contains (deep_link (room_id room) event_id)
    (notice_text room (make_pill sender) body event_id) = true /\
  str_contains (room_id room) (deep_link (room_id room) event_id) = true /\
  str_contains event_id (deep_link (room_id room) event_id) = true.
Proof.
  intros Hget Hme Hroom Hkey Hin Hsend.
  assert (handler (S fuel) room (Unknown ev) reacted_to_id w =
          (Returned tt,
           emits w
             [Log DEBUG (LText ("Got reaction to " +:+ room_id room +:+ " from "
                                +:+ ev_sender ev +:+ ".")) [];
              RoomGetEvent (room_id room) reacted_to_id;
              Log INFO (LText "Are we in the room?") [];
              Log INFO (LBool true) [];
              Log INFO (LRoom star_room) [];
              SendText star_room_id
                (notice_text room (make_pill sender) body event_id) false
                (SendReturns (RoomSendResponse ack));
              Log INFO (LSend (RoomSendResponse ack)) []])) as ->.
  { rewrite (reaction_accepted _ _ _ _ _ _ _ _ _ _ _ _ Hget eq_refl Hme Hroom Hkey).
    erewrite loop_send_returns; [| exact Hin | reflexivity |].
    - by rewrite emits_emits.
    - simpl. recount. exact Hsend. }
  split; [done|]. split; [simpl; by recount|].
  auto 10 using notice_has_display_name, notice_has_pill, notice_has_body,
                notice_has_link, deep_link_has_room_id, deep_link_has_event_id.
Qed.

(** After a [LocalProtocolError] and a sync that leaves the bot outside
    the star room, the second pass stops at the membership test: the
    notice is not sent again. *)
Lemma resync_rechecks_membership fuel room target pill w star_room body msg rooms' :
  rooms w !! star_room_id = Some star_room ->
  body_of target = Ok body ->
  send_text_to_room (length (sends (trace w))) star_room_id
    (notice_text room pill body (event_id_of target)) false
    = SendRaises (LocalProtocolError msg) ->
  sync (syncs (trace w)) = SyncDone rooms' ->
  rooms' !! star_room_id = None ->
  (loop (S (S fuel)) room target pill w).1 = Returned tt /\
  length (sends (trace (loop (S (S fuel)) room target pill w).2))
    = S (length (sends (trace w))).
Proof.
  intros Hin Hbody Hsend Hsync Hout.
  erewrite loop_send_local_protocol_error by eassumption.
  rewrite loop_not_joined by exact Hout.
  split; [done|]. simpl. recount. rewrite length_app. simpl. lia.
Qed.

(** C2.  The first send raises [LocalProtocolError], the sync that
    follows succeeds and still shows the star room, and the second send is
    acknowledged: the handler returns after the effects listed below, in
    this order.  There are two send attempts and one sync, the membership
    test is made again between the sync and the second attempt, and one
    notice is delivered. *)
Theorem local_protocol_error_resyncs_once fuel room ev reacted_to_id
    sender event_id body star_room star_room' rooms' msg ack w :
  room_get_event (room_id room) reacted_to_id
    = RoomGetEventResponse (TargetMessage sender event_id body) ->
  ev_sender ev = user_id ->
  room_id room <> star_room_id ->
  reaction_content (ev_source ev) = Ok (JStr star_glyph) ->
  rooms w !! star_room_id = Some star_room ->
  send_text_to_room (length (sends (trace w))) star_room_id
    (notice_text room (make_pill sender) body event_id) false
    = SendRaises (LocalProtocolError msg) ->
  sync (syncs (trace w)) = SyncDone rooms' ->
  rooms' !! star_room_id = Some star_room' ->
  send_text_to_room (S (length (sends (trace w)))) star_room_id
    (notice_text room (make_pill sender) body event_id) false
    = SendReturns (RoomSendResponse ack) ->
  handler (S (S fuel)) room (Unknown ev) reacted_to_id w =
    (Returned tt,
     {| rooms := rooms';
        trace := trace w ++
          [Log DEBUG (LText ("Got reaction to " +:+ room_id room +:+ " from "
                             +:+ ev_sender ev +:+ ".")) [];
           RoomGetEvent (room_id room) reacted_to_id;
           Log INFO (LText "Are we in the room?") [];
           Log INFO (LBool true) [];
           Log INFO (LRoom star_room) [];
           SendText star_room_id
             (notice_text room (make_pill sender) body event_id) false
             (SendRaises (LocalProtocolError msg));
           Log ERROR (LExn (LocalProtocolError msg)) [];
           Sync;
           Log INFO (LText "Are we in the room?") [];
           Log INFO (LBool true) [];
           Log INFO (LRoom star_room') [];
           SendText star_room_id
             (notice_text room (make_pill sender) body event_id) false
             (SendReturns (RoomSendResponse ack));
           Log INFO (LSend (RoomSendResponse ack)) []] |}) /\
  length (sends (trace (handler (S (S fuel)) room (Unknown ev) reacted_to_id w).2))
    = length (sends (trace w)) + 2 /\
  syncs (trace (handler (S (S fuel)) room (Unknown ev) reacted_to_id w).2)
    = syncs (trace w) + 1 /\
  delivered (trace (handler (S (S fuel)) room (Unknown ev) reacted_to_id w).2)
    = delivered (trace w) ++
      [(star_room_id, notice_text room (make_pill sender) body event_id, false,
        SendReturns (RoomSendResponse ack))].
Proof.
  intros Hget Hme Hroom Hkey Hin Hsend1 Hsync Hin' Hsend2.
  match goal with |- ?run = ?res /\ _ => assert (run = res) as -> end.
  { rewrite (reaction_accepted _ _ _ _ _ _ _ _ _ _ _ _ Hget eq_refl Hme Hroom Hkey).
    erewrite loop_send_local_protocol_error;
      [| exact Hin | reflexivity | simpl; recount; exact Hsend1
       | simpl; recount; exact Hsync ].
    erewrite loop_send_returns; [| exact Hin' | reflexivity |].
    - unfold emits. simpl. by rewrite <- !app_assoc.
    - simpl. recount. rewrite length_app. simpl.
      rewrite Nat.add_1_r. exact Hsend2. }
  split; [done|]. simpl.
  rewrite sends_app, syncs_app, delivered_app, length_app. simpl.
  repeat split; lia.
Qed.

(** C6.  When the star room is not among the joined rooms at the
    membership test, the loop is left after three log lines: it makes no
    send attempt and no sync, and does not go round again.  So a reaction
    handled while the star room is not joined never leads to a send
    attempt, whatever the reaction is. *)
Theorem not_joined_sends_nothing fuel room target pill event reacted_to_id w :
  rooms w !! star_room_id = None ->
  loop (S fuel) room target pill w =
    (Returned tt,
     emits w [Log INFO (LText "Are we in the room?") [];
              Log INFO (LBool false) [];
              Log INFO (LText "We weren't in the room, bailing") []]) /\
  sends (trace (loop (S fuel) room target pill w).2) = sends (trace w) /\
  syncs (trace (loop (S fuel) room target pill w).2) = syncs (trace w) /\
  sends (trace (handler (S fuel) room event reacted_to_id w).2) = sends (trace w).
Proof.
  intros Hout. rewrite loop_not_joined by exact Hout.
  split; [done|]. split; [simpl; by recount|]. split; [simpl; by recount|].
  destruct event as [ev|s src]; [|by (simpl; step; recount)].
  remember (S fuel) as n eqn:Hn. unfold _reaction. step.
  destruct (room_get_event _ _) as [tgt|m]; step; [|by recount].
  destruct (is_megolm tgt); step; [by recount|].
  repeat case_bool_decide; simpl; try by recount.
  destruct (reaction_content (ev_source ev)) as [key|e]; step; [|by recount].
  destruct (py_eq_str key star_glyph); simpl; [|by recount].
  subst n. rewrite loop_not_joined by exact Hout. simpl. by recount.
Qed.

(** C4.  A reaction whose key, read as the handler reads it, is
    anything but the string of the six bytes of the star glyph (another
    string, a value that is no string, no key at all, or a lookup that
    raises) leads to no send attempt. *)
Theorem other_glyph_sends_nothing fuel room event reacted_to_id w :
  reaction_content (event_source event) <> Ok (JStr star_glyph) ->
  sends (trace (handler fuel room event reacted_to_id w).2) = sends (trace w).
Proof.
  intros Hkey.
  by destruct (reaction_filtered star_room_id user_id make_pill room_get_event
                 send_text_to_room sync fuel room event reacted_to_id w)
    as (? & _); [auto|].
Qed.

(** A reaction of another account makes the handler return after log
    lines and at most one lookup. *)
Lemma foreign_reaction_returns fuel room event reacted_to_id w :
  event_sender event <> user_id ->
  exists l, handler fuel room event reacted_to_id w = (Returned tt, emits w l) /\
            sends l = [] /\ syncs l = 0.
Proof.
  intros Hother. destruct event as [ev|s src]; simpl in Hother.
  2: { eexists. simpl. step. eauto. }
  unfold _reaction. step.
  destruct (room_get_event _ _) as [tgt|m]; step; [|eauto].
  destruct (is_megolm tgt); step; [eauto|].
  case_bool_decide; [done|]. simpl. eauto.
Qed.

(** C5.  Reactions sent by accounts other than the bot, however many
    are handled one after the other, each make the handler return, and no
    send attempt is made. *)
Theorem foreign_reactions_send_nothing fuel (l : list (MatrixRoom * Event * json)) w :
  Forall (fun r => event_sender r.1.2 <> user_id) l ->
  (react_to_all star_room_id user_id make_pill room_get_event send_text_to_room
     sync fuel l w).1 = Returned tt /\
  sends (trace (react_to_all star_room_id user_id make_pill room_get_event
                  send_text_to_room sync fuel l w).2) = sends (trace w).
Proof.
  intros Hall. revert w.
  induction Hall as [|[[room event] reacted_to_id] l Hother _ IH]; intros w.
  { done. }
  unfold react_to_all in *. simpl in Hother. simpl for_each.
  destruct (foreign_reaction_returns fuel room event reacted_to_id w Hother)
    as (out & Hrun & Hsends & _).
  rewrite !(bind_returned _ _ _ _ _ Hrun).
  destruct (IH (emits w out)) as [-> ->]. split; [done|].
  simpl. rewrite sends_app, Hsends. apply app_nil_r.
Qed.

(** C9.  When the payload has no ["content"] entry, or its content has
    no ["m.relates_to"] entry, or its relation has no ["key"] entry, the
    lookups of lines 79-81 raise nothing and give [None]; the handler then
    returns without a send attempt. *)
Theorem missing_key_is_no_match fuel room ev reacted_to_id w :
  (ev_source ev !! "content" = None \/
   (exists content,
      ev_source ev !! "content" = Some (JDict content) /\
      content !! "m.relates_to" = None) \/
   (exists content rel,
      ev_source ev !! "content" = Some (JDict content) /\
      content !! "m.relates_to" = Some (JDict rel) /\
      rel !! "key" = None)) ->
  reaction_content (ev_source ev) = Ok JNull /\
  (handler fuel room (Unknown ev) reacted_to_id w).1 = Returned tt /\
  sends (trace (handler fuel room (Unknown ev) reacted_to_id w).2) = sends (trace w).
Proof.
  intros Hlack.
  assert (reaction_content (ev_source ev) = Ok JNull) as Hnone.
  { unfold reaction_content, relates_to, py_get.
    destruct Hlack as [->|[(c & -> & Hrel)|(c & rel & -> & Hrel & Hkey)]]; simpl.
    - by rewrite lookup_empty.
    - rewrite Hrel. simpl. by rewrite lookup_empty.
    - rewrite Hrel. simpl. by rewrite Hkey. }
  split; [done|].
  destruct (reaction_filtered star_room_id user_id make_pill room_get_event
              send_text_to_room sync fuel room (Unknown ev) reacted_to_id w)
    as (Hsends & _ & _ & Hret).
  { right; right. simpl. by rewrite Hnone. }
  split; [|done].
  destruct Hret as [?|(attr & _ & Herr)]; [done|].
  simpl in Herr. congruence.
Qed.

End Delivery.

(** ** The router *)

(** C7.  When the relation of an event has no ["event_id"] entry, or
    its ["rel_type"] is not the string ["m.annotation"], [unknown] writes
    its debug line and returns, whatever handler it was given: the handler
    is not run. *)
Theorem unrelated_annotation_is_not_dispatched
    (handler : MatrixRoom -> Event -> json -> M unit) room event rel w :
  relates_to (ev_source event) = Ok (JDict rel) ->
  rel !! "event_id" = None \/ rel !! "rel_type" <> Some (JStr "m.annotation") ->
  unknown_with handler room event w =
    (Returned tt,
     emits w [Log DEBUG (LText ("Got unknown event with type to " +:+ ev_type event
                                +:+ " from " +:+ ev_sender event +:+ " in "
                                +:+ room_id room +:+ ".")) []]).
Proof.
  intros Hrel Hbad. unfold unknown_with.
  case_bool_decide; step; [|done].
  rewrite Hrel. step.
  destruct (truthy (default JNull (rel !! "event_id"))) eqn:Htarget; step; [|done].
  destruct Hbad as [Hnone|Htype].
  { rewrite Hnone in Htarget. discriminate. }
  destruct (py_eq_str (default JNull (rel !! "rel_type")) "m.annotation") eqn:Heq;
    step; [|done].
  apply py_eq_str_true in Heq. destruct (rel !! "rel_type"); simpl in Heq; congruence.
Qed.

(** A relation that is no dictionary stops the router with an
    [AttributeError], before any handler is run. *)
Lemma malformed_relation_raises
    (handler : MatrixRoom -> Event -> json -> M unit) room event v w :
  ev_type event = "m.reaction" ->
  relates_to (ev_source event) = Ok v ->
  (forall rel, v <> JDict rel) ->
  unknown_with handler room event w = (Raised (AttributeError "get"), w).
Proof.
  intros Hty Hrel Hnodict. unfold unknown_with.
  case_bool_decide; [|done]. step. rewrite Hrel. step.
  destruct v; try done. by destruct (Hnodict d).
Qed.

(** The router hands an annotation with a target to the handler. *)
Lemma annotation_is_dispatched
    (handler : MatrixRoom -> Event -> json -> M unit) room event rel target w :
  ev_type event = "m.reaction" ->
  relates_to (ev_source event) = Ok (JDict rel) ->
  rel !! "event_id" = Some target ->
  truthy target = true ->
  rel !! "rel_type" = Some (JStr "m.annotation") ->
  unknown_with handler room event w =
    (handler room (Unknown event) target ;; ret tt) w.
Proof.
  intros Hty Hrel Hid Htruthy Htype. unfold unknown_with.
  case_bool_decide; [|done]. step. rewrite Hrel. step.
  rewrite Hid, Htype. simpl. rewrite Htruthy. step.
  by destruct (handler room (Unknown event) target w) as [[[]| |] ?].
Qed.

(** ** The deep link *)

Lemma parse_written_link (room_id event_id : string) :
  has_char "/" room_id = false ->
  has_char "?" event_id = false ->
  parse_deep_link (deep_link room_id event_id) = Some (room_id, event_id).
Proof.
  intros Hroom Hevent. unfold parse_deep_link, deep_link.
  rewrite strip_prefix_append.
  change ("/" +:+ event_id +:+ "?via=lant.uk)")
    with (String "/" (event_id +:+ "?via=lant.uk)")).
  rewrite (split_at_first _ _ _ Hroom).
  change ("?via=lant.uk)") with (String "?" "via=lant.uk)").
  by rewrite (split_at_first _ _ _ Hevent).
Qed.

(** The link determines the two ids. *)
Lemma deep_link_inj (r1 e1 r2 e2 : string) :
  has_char "/" r1 = false -> has_char "?" e1 = false ->
  has_char "/" r2 = false -> has_char "?" e2 = false ->
  deep_link r1 e1 = deep_link r2 e2 -> r1 = r2 /\ e1 = e2.
Proof.
  intros Hr1 He1 Hr2 He2 Heq.
  pose proof (parse_written_link r1 e1 Hr1 He1) as H1.
  rewrite Heq, (parse_written_link r2 e2 Hr2 He2) in H1.
  by simplify_eq.
Qed.

(** C8.  For a room id without a slash and an event id without a
    question mark, the notice of line 98 ends with the deep link, and
    reading that link gives back the room id and the event id. *)
Theorem deep_link_round_trip (room : MatrixRoom) (pill body event_id : string) :
  has_char "/" (room_id room) = false ->
  has_char "?" event_id = false ->
  exists front,
    notice_text room pill body event_id = front +:+ deep_link (room_id room) event_id /\
    parse_deep_link (deep_link (room_id room) event_id) = Some (room_id room, event_id).
Proof.
  intros Hroom Hevent.
  destruct (notice_ends_with_link room pill body event_id) as [front Hfront].
  exists front. split; [exact Hfront|]. by apply parse_written_link.
Qed.

(** ** Start-up *)

Section MainFacts.

Variable star_room_id : string.
Variable user_id : string.
Variable authenticate : M bool.
Variable join : nat -> string -> join_result.
Variable sync_forever : nat -> forever_outcome.

Local Abbreviation attempt := (join_attempt star_room_id join).

(** An accepted join is logged, and the loop body ends normally. *)
Lemma join_attempt_accepted n w joined :
  join (joins (trace w)) star_room_id = JoinResponse joined ->
  attempt n w =
    (Returned tt,
     emits w [Log INFO (LText ("attempt " +:+ pretty n)) [];
              Join star_room_id;
              Log INFO (LJoin (JoinResponse joined)) [];
              Log INFO (LText "We're in the room (aside: we're not)") []]).
Proof.
  intros Hjoin. unfold join_attempt. step. recount. rewrite Hjoin. by step.
Qed.

(** A refused join raises [NameError] before anything is logged about
    it: the message of line 118 names [room], which [main] never binds. *)
Lemma join_attempt_refused n w message :
  join (joins (trace w)) star_room_id = JoinError message ->
  attempt n w =
    (Raised (NameError "room"),
     emits w [Log INFO (LText ("attempt " +:+ pretty n)) [];
              Join star_room_id]).
Proof.
  intros Hjoin. unfold join_attempt. step. recount. rewrite Hjoin. by step.
Qed.

(** Three accepted joins: the loop makes all three attempts and logs the
    answer to each; an accepted join does not end it. *)
Lemma join_star_room_accepted w j0 j1 j2 :
  rooms w !! star_room_id = None ->
  join (joins (trace w)) star_room_id = JoinResponse j0 ->
  join (S (joins (trace w))) star_room_id = JoinResponse j1 ->
  join (S (S (joins (trace w)))) star_room_id = JoinResponse j2 ->
  join_star_room star_room_id join w =
    (Returned tt,
     emits w [Log INFO (LText "Joining star room") [];
              Log INFO (LText "attempt 0") [];
              Join star_room_id;
              Log INFO (LJoin (JoinResponse j0)) [];
              Log INFO (LText "We're in the room (aside: we're not)") [];
              Log INFO (LText "attempt 1") [];
              Join star_room_id;
              Log INFO (LJoin (JoinResponse j1)) [];
              Log INFO (LText "We're in the room (aside: we're not)") [];
              Log INFO (LText "attempt 2") [];
              Join star_room_id;
              Log INFO (LJoin (JoinResponse j2)) [];
              Log INFO (LText "We're in the room (aside: we're not)") []]).
Proof.
  intros Hout H0 H1 H2.
  unfold join_star_room. step. rewrite Hout. simpl for_each.
  erewrite bind_returned.
  2: { apply join_attempt_accepted. simpl. recount. exact H0. }
  erewrite bind_returned.
  2: { apply join_attempt_accepted. simpl. recount. cbn.
       rewrite Nat.add_1_r. exact H1. }
  erewrite bind_returned.
  2: { apply join_attempt_accepted. simpl. recount. cbn.
       rewrite !Nat.add_1_r. exact H2. }
  by rewrite !emits_emits.
Qed.

Lemma join_star_room_accepted_count w j0 j1 j2 :
  rooms w !! star_room_id = None ->
  join (joins (trace w)) star_room_id = JoinResponse j0 ->
  join (S (joins (trace w))) star_room_id = JoinResponse j1 ->
  join (S (S (joins (trace w)))) star_room_id = JoinResponse j2 ->
  joins (trace (join_star_room star_room_id join w).2) = joins (trace w) + 3.
Proof.
  intros Hout H0 H1 H2.
  rewrite (join_star_room_accepted w j0 j1 j2) by assumption.
  simpl. recount. cbn. lia.
Qed.

(** The first join refused: one attempt, then [NameError]. *)
Lemma join_star_room_refused w message :
  rooms w !! star_room_id = None ->
  join (joins (trace w)) star_room_id = JoinError message ->
  join_star_room star_room_id join w =
    (Raised (NameError "room"),
     emits w [Log INFO (LText "Joining star room") [];
              Log INFO (LText "attempt 0") [];
              Join star_room_id]).
Proof.
  intros Hout Hjoin. unfold join_star_room. step. rewrite Hout. simpl for_each.
  erewrite bind_raised.
  2: { apply (join_attempt_refused _ _ message). simpl. recount. exact Hjoin. }
  by rewrite emits_emits.
Qed.

(** ... and the [NameError] leaves [main]: no [except] clause takes it,
    the client is closed, and [sync_forever] is never reached. *)
Lemma refused_join_ends_main fuel w message :
  authenticate w = (Returned true, w) ->
  rooms w !! star_room_id = None ->
  join (joins (trace w)) star_room_id = JoinError message ->
  main star_room_id user_id authenticate join sync_forever (S fuel) w =
    (Raised (NameError "room"),
     emits w [Log INFO (LText ("Logged in as " +:+ user_id)) [];
              Log INFO (LText "Joining star room") [];
              Log INFO (LText "attempt 0") [];
              Join star_room_id;
              Close]).
Proof.
  intros Hauth Hout Hjoin.
  assert (session star_room_id user_id authenticate join sync_forever w =
          (Raised (NameError "room"),
           emits w [Log INFO (LText ("Logged in as " +:+ user_id)) [];
                    Log INFO (LText "Joining star room") [];
                    Log INFO (LText "attempt 0") [];
                    Join star_room_id])) as Hsession.
  { unfold session. erewrite bind_returned by exact Hauth.
    cbv beta iota. erewrite bind_returned by reflexivity.
    erewrite bind_raised.
    2: { apply (join_star_room_refused _ message); [exact Hout|].
         simpl. recount. exact Hjoin. }
    by rewrite emit_to_emits, emits_emits. }
  simpl. unfold bind, try_finally, try_except. rewrite Hsession. simpl.
  by rewrite emit_to_emits, emits_emits.
Qed.

End MainFacts.

(** C3 (the source departs from it).  The star room is not joined and
    the homeserver refuses the first join.  Building the error message of
    line 118 raises [NameError]: nothing is logged about the refusal, no
    second attempt is made, no [except] clause of [main] takes the
    exception, and after the client is closed it leaves [main], so
    [sync_forever] is never reached. *)
Theorem refused_join_raises_name_error :
  main Demo.star_room_id Demo.user_id (ret true) Demo.join_refused
    Demo.sync_forever 3 Demo.w_away =
  (Raised (NameError "room"),
   {| rooms := ∅;
      trace := [Log INFO (LText "Logged in as @bot:lant.uk") [];
                Log INFO (LText "Joining star room") [];
                Log INFO (LText "attempt 0") [];
                Join "!stars:lant.uk";
                Close] |}).
Proof. reflexivity. Qed.

(** C10 (the source departs from it).  The star room is not joined, the
    first join is accepted and the second refused.  The accepted join does
    not end the loop, but the refused one does, with [NameError]: two
    attempts are made, not three. *)
Theorem refused_join_stops_the_attempts :
  join_star_room Demo.star_room_id Demo.join_limited Demo.w_away =
  (Raised (NameError "room"),
   {| rooms := ∅;
      trace := [Log INFO (LText "Joining star room") [];
                Log INFO (LText "attempt 0") [];
                Join "!stars:lant.uk";
                Log INFO (LJoin (JoinResponse "!stars:lant.uk")) [];
                Log INFO (LText "We're in the room (aside: we're not)") [];
                Log INFO (LText "attempt 1") [];
                Join "!stars:lant.uk"] |}) /\
  joins (trace (join_star_room Demo.star_room_id Demo.join_limited Demo.w_away).2) = 2.
Proof. split; reflexivity. Qed.

(** ** The model at work *)

Example star_glyph_is_the_literal : star_glyph = "⭐️".
Proof. reflexivity. Qed.

Example star_is_relayed :
  sends (trace (Demo.run_reaction Demo.send_ok Demo.star Demo.w_joined).2) =
  [("!stars:lant.uk",
    "<a href=" +:+ dquote +:+ "https://matrix.to/#/!lobby:lant.uk" +:+ dquote
      +:+ ">Lobby</a>—<a href=" +:+ dquote +:+ "https://matrix.to/#/@alice:lant.uk"
      +:+ dquote +:+ ">@alice:lant.uk</a>: hello world "
      +:+ "[->](https://matrix.to/#/!lobby:lant.uk/$target?via=lant.uk)",
    false, SendReturns (RoomSendResponse "$notice"))].
Proof. reflexivity. Qed.

Example bare_star_is_not_relayed :
  sends (trace (Demo.run_reaction Demo.send_ok Demo.bare_star Demo.w_joined).2) = [].
Proof. reflexivity. Qed.

Example thumbs_up_is_not_relayed :
  sends (trace (Demo.run_reaction Demo.send_ok Demo.thumbs_up Demo.w_joined).2) = [].
Proof. reflexivity. Qed.

Example accepted_joins_reach_sync_forever :
  forevers (trace (main Demo.star_room_id Demo.user_id (ret true) Demo.join_accepted
                     Demo.sync_forever 1 Demo.w_away).2) = 1 /\
  joins (trace (main Demo.star_room_id Demo.user_id (ret true) Demo.join_accepted
                  Demo.sync_forever 1 Demo.w_away).2) = 3.
Proof. split; reflexivity. Qed.

Example annotation_without_target_is_ignored :
  unknown Demo.star_room_id Demo.user_id Demo.make_pill Demo.room_get_event
    Demo.send_ok Demo.sync 2 Demo.origin Demo.no_target Demo.w_joined =
  (Returned tt,
   emits Demo.w_joined
     [Log DEBUG (LText "Got unknown event with type to m.reaction from @bot:lant.uk in !lobby:lant.uk.") []]).
Proof. reflexivity. Qed.

Example routed_star_is_relayed :
  length (sends (trace (unknown Demo.star_room_id Demo.user_id Demo.make_pill
                          Demo.room_get_event Demo.send_ok Demo.sync 2 Demo.origin
                          Demo.star Demo.w_joined).2)) = 1.
Proof. reflexivity. Qed.

(** A payload whose content is no dictionary is outside C9: the lookup
    itself raises. *)
Example content_that_is_no_dictionary_raises :
  reaction_content {[ "content" := JStr "text" ]} = Err (AttributeError "get").
Proof. reflexivity. Qed.

(** ** The theorems at the deployment above *)

Lemma star_reaction_sends_one_notice_witness :
  (Demo.room_get_event (room_id Demo.origin) (JStr "$target")
     = RoomGetEventResponse (TargetMessage "@alice:lant.uk" "$target" "hello world") /\
   ev_sender Demo.star = Demo.user_id /\
   room_id Demo.origin <> Demo.star_room_id /\
   reaction_content (ev_source Demo.star) = Ok (JStr star_glyph) /\
   rooms Demo.w_joined !! Demo.star_room_id = Some Demo.star_room) /\
  (Demo.run_reaction Demo.send_ok Demo.star Demo.w_joined).1 = Returned tt /\
  length (sends (trace (Demo.run_reaction Demo.send_ok Demo.star Demo.w_joined).2)) = 1.
Proof.
  split.
  { repeat split; try reflexivity. intros H; vm_compute in H; discriminate H. }
  destruct (star_reaction_sends_one_notice Demo.star_room_id Demo.user_id
              Demo.make_pill Demo.room_get_event Demo.send_ok Demo.sync
              1 Demo.origin Demo.star (JStr "$target")
              "@alice:lant.uk" "$target" "hello world" Demo.star_room "$notice"
              Demo.w_joined)
    as (Hret & Hsends & _).
  - reflexivity.
  - reflexivity.
  - intros H; vm_compute in H; discriminate H.
  - reflexivity.
  - reflexivity.
  - reflexivity.
  - split; [exact Hret|]. unfold Demo.run_reaction. rewrite Hsends. reflexivity.
Defined.

Lemma local_protocol_error_resyncs_once_witness :
  (Demo.send_flaky 0 Demo.star_room_id
     (notice_text Demo.origin (Demo.make_pill "@alice:lant.uk") "hello world" "$target")
     false = SendRaises (LocalProtocolError "No such room") /\
   Demo.sync 0 = SyncDone Demo.joined /\
   Demo.send_flaky 1 Demo.star_room_id
     (notice_text Demo.origin (Demo.make_pill "@alice:lant.uk") "hello world" "$target")
     false = SendReturns (RoomSendResponse "$notice")) /\
  length (sends (trace (Demo.run_reaction Demo.send_flaky Demo.star Demo.w_joined).2)) = 2 /\
  syncs (trace (Demo.run_reaction Demo.send_flaky Demo.star Demo.w_joined).2) = 1 /\
  length (delivered (trace (Demo.run_reaction Demo.send_flaky Demo.star Demo.w_joined).2)) = 1.
Proof.
  split; [repeat split; reflexivity|].
  destruct (local_protocol_error_resyncs_once Demo.star_room_id Demo.user_id
              Demo.make_pill Demo.room_get_event Demo.send_flaky Demo.sync
              0 Demo.origin Demo.star (JStr "$target")
              "@alice:lant.uk" "$target" "hello world" Demo.star_room Demo.star_room
              Demo.joined "No such room" "$notice" Demo.w_joined)
    as (_ & Hsends & Hsyncs & Hdelivered).
  - reflexivity.
  - reflexivity.
  - intros H; vm_compute in H; discriminate H.
  - reflexivity.
  - reflexivity.
  - reflexivity.
  - reflexivity.
  - reflexivity.
  - reflexivity.
  - unfold Demo.run_reaction. rewrite Hsends, Hsyncs, Hdelivered. repeat split.
Defined.

Lemma other_glyph_sends_nothing_witness :
  reaction_content (event_source (Unknown Demo.thumbs_up)) <> Ok (JStr star_glyph) /\
  sends (trace (Demo.run_reaction Demo.send_ok Demo.thumbs_up Demo.w_joined).2) = [].
Proof.
  assert (reaction_content (event_source (Unknown Demo.thumbs_up)) <> Ok (JStr star_glyph))
    as Hkey by (intros H; vm_compute in H; discriminate H).
  split; [exact Hkey|].
  exact (other_glyph_sends_nothing Demo.star_room_id Demo.user_id Demo.make_pill
           Demo.room_get_event Demo.send_ok Demo.sync 2 Demo.origin
           (Unknown Demo.thumbs_up) (JStr "$target") Demo.w_joined Hkey).
Defined.

Lemma foreign_reactions_send_nothing_witness :
  Forall (fun r : MatrixRoom * Event * json => event_sender r.1.2 <> Demo.user_id)
    (replicate 3 (Demo.origin, Unknown Demo.star_of_alice, JStr "$target")) /\
  sends (trace (react_to_all Demo.star_room_id Demo.user_id Demo.make_pill
                  Demo.room_get_event Demo.send_ok Demo.sync 2
                  (replicate 3 (Demo.origin, Unknown Demo.star_of_alice, JStr "$target"))
                  Demo.w_joined).2) = [].
Proof.
  assert (Forall (fun r : MatrixRoom * Event * json => event_sender r.1.2 <> Demo.user_id)
            (replicate 3 (Demo.origin, Unknown Demo.star_of_alice, JStr "$target")))
    as Hall.
  { repeat constructor; intros H; vm_compute in H; discriminate H. }
  split; [exact Hall|].
  exact (proj2 (foreign_reactions_send_nothing Demo.star_room_id Demo.user_id
                  Demo.make_pill Demo.room_get_event Demo.send_ok Demo.sync 2
                  _ Demo.w_joined Hall)).
Defined.

Lemma not_joined_sends_nothing_witness :
  rooms Demo.w_away !! Demo.star_room_id = None /\
  sends (trace (Demo.run_reaction Demo.send_ok Demo.star Demo.w_away).2) = [].
Proof.
  split; [reflexivity|].
  exact (proj2 (proj2 (proj2
    (not_joined_sends_nothing Demo.star_room_id Demo.user_id Demo.make_pill
       Demo.room_get_event Demo.send_ok Demo.sync 1 Demo.origin Demo.target
       (Demo.make_pill "@alice:lant.uk") (Unknown Demo.star) (JStr "$target")
       Demo.w_away eq_refl)))).
Defined.

Lemma unrelated_annotation_is_not_dispatched_witness :
  (relates_to (ev_source Demo.a_reply)
     = Ok (JDict (list_to_map [("event_id", JStr "$target");
                               ("rel_type", JStr "m.reference")])) /\
   (list_to_map [("event_id", JStr "$target"); ("rel_type", JStr "m.reference")]
      : gmap string json) !! "rel_type" <> Some (JStr "m.annotation")) /\
  unknown Demo.star_room_id Demo.user_id Demo.make_pill Demo.room_get_event
    Demo.send_ok Demo.sync 2 Demo.origin Demo.a_reply Demo.w_joined =
  (Returned tt,
   emits Demo.w_joined
     [Log DEBUG (LText ("Got unknown event with type to " +:+ ev_type Demo.a_reply
                        +:+ " from " +:+ ev_sender Demo.a_reply +:+ " in "
                        +:+ room_id Demo.origin +:+ ".")) []]).
Proof.
  assert ((list_to_map [("event_id", JStr "$target"); ("rel_type", JStr "m.reference")]
             : gmap string json) !! "rel_type" <> Some (JStr "m.annotation")) as Htype
    by (intros H; vm_compute in H; discriminate H).
  split; [split; [reflexivity | exact Htype]|].
  exact (unrelated_annotation_is_not_dispatched
           (_reaction Demo.star_room_id Demo.user_id Demo.make_pill Demo.room_get_event
              Demo.send_ok Demo.sync 2)
           Demo.origin Demo.a_reply _ Demo.w_joined eq_refl (or_intror Htype)).
Defined.

Lemma deep_link_round_trip_witness :
  (has_char "/" (room_id Demo.origin) = false /\ has_char "?" "$target" = false) /\
  parse_deep_link (deep_link (room_id Demo.origin) "$target")
    = Some (room_id Demo.origin, "$target").
Proof.
  split; [split; reflexivity|].
  destruct (deep_link_round_trip Demo.origin (Demo.make_pill "@alice:lant.uk")
              "hello world" "$target" eq_refl eq_refl) as (front & _ & Hparse).
  exact Hparse.
Defined.

Lemma missing_key_is_no_match_witness :
  (exists content rel,
     ev_source Demo.keyless !! "content" = Some (JDict content) /\
     content !! "m.relates_to" = Some (JDict rel) /\
     rel !! "key" = None) /\
  reaction_content (ev_source Demo.keyless) = Ok JNull /\
  (Demo.run_reaction Demo.send_ok Demo.keyless Demo.w_joined).1 = Returned tt /\
  sends (trace (Demo.run_reaction Demo.send_ok Demo.keyless Demo.w_joined).2) = [].
Proof.
  assert (exists content rel,
            ev_source Demo.keyless !! "content" = Some (JDict content) /\
            content !! "m.relates_to" = Some (JDict rel) /\
            rel !! "key" = None) as Hlack.
  { eexists _, _. repeat split; reflexivity. }
  split; [exact Hlack|].
  exact (missing_key_is_no_match Demo.star_room_id Demo.user_id Demo.make_pill
           Demo.room_get_event Demo.send_ok Demo.sync 2 Demo.origin Demo.keyless
           (JStr "$target") Demo.w_joined (or_intror (or_intror Hlack))).
Defined.

(** * Further properties *)



Lemma lookups_app t1 t2 : lookups (t1 ++ t2) = lookups t1 + lookups t2.
Proof. unfold lookups. by rewrite List.filter_app, length_app. Qed.

(** ** Every way through the delivery loop *)

Section LoopCases.

Variable star_room_id : string.
Variable send_text_to_room : nat -> string -> string -> bool -> send_outcome.
Variable sync : nat -> sync_outcome.

Local Abbreviation loop := (delivery_loop star_room_id send_text_to_room sync).

(** The target has no [body]: the f-string raises inside the [try], and no
    [except] clause takes the error. *)
Lemma loop_no_body fuel room target pill w star_room attr :
  rooms w !! star_room_id = Some star_room ->
  body_of target = Err (AttributeError attr) ->
  loop (S fuel) room target pill w =
    (Raised (AttributeError attr),
     emits w [Log INFO (LText "Are we in the room?") [];
              Log INFO (LBool true) [];
              Log INFO (LRoom star_room) []]).
Proof.
  intros Hin Hbody. simpl. step. rewrite Hin, Hbody. by step.
Qed.

Lemma loop_send_raises fuel room target pill w star_room body e :
  rooms w !! star_room_id = Some star_room ->
  body_of target = Ok body ->
  send_text_to_room (length (sends (trace w))) star_room_id
    (notice_text room pill body (event_id_of target)) false = SendRaises e ->
  (forall msg, e <> LocalProtocolError msg) ->
  loop (S fuel) room target pill w =
    (Raised e,
     emits w [Log INFO (LText "Are we in the room?") [];
              Log INFO (LBool true) [];
              Log INFO (LRoom star_room) [];
              SendText star_room_id
                (notice_text room pill body (event_id_of target)) false
                (SendRaises e)]).
Proof.
  intros Hin Hbody Hsend Hother. simpl. step. rewrite Hin, Hbody. step.
  recount. rewrite Hsend. step.
  destruct e; try done. by destruct (Hother msg).
Qed.

Lemma loop_sync_raises fuel room target pill w star_room body msg e :
  rooms w !! star_room_id = Some star_room ->
  body_of target = Ok body ->
  send_text_to_room (length (sends (trace w))) star_room_id
    (notice_text room pill body (event_id_of target)) false
    = SendRaises (LocalProtocolError msg) ->
  sync (syncs (trace w)) = SyncRaises e ->
  loop (S fuel) room target pill w =
    (Raised e,
     emits w [Log INFO (LText "Are we in the room?") [];
              Log INFO (LBool true) [];
              Log INFO (LRoom star_room) [];
              SendText star_room_id
                (notice_text room pill body (event_id_of target)) false
                (SendRaises (LocalProtocolError msg));
              Log ERROR (LExn (LocalProtocolError msg)) [];
              Sync]).
Proof.
  intros Hin Hbody Hsend Hsync. simpl. step. rewrite Hin, Hbody. step.
  recount. rewrite Hsend. step. recount. rewrite Hsync. by step.
Qed.

End LoopCases.

(** ** What every run of the handler keeps *)

Lemma body_of_err target e : body_of target = Err e -> e = AttributeError "body".
Proof. destruct target; simpl; congruence. Qed.

Section RunShape.

Variable star_room_id : string.
Variable user_id : string.
Variable make_pill : string -> string.
Variable room_get_event : string -> json -> get_event_response.
Variable send_text_to_room : nat -> string -> string -> bool -> send_outcome.
Variable sync : nat -> sync_outcome.

Local Abbreviation loop := (delivery_loop star_room_id send_text_to_room sync).
Local Abbreviation handler :=
  (_reaction star_room_id user_id make_pill room_get_event send_text_to_room sync).

(** The effects that a run of the loop adds: every send attempt is for the
    star room, carries the notice built from the target, and is no
    notice-type message; at most one attempt is acknowledged, and then the
    loop has returned; there are no more syncs than attempts; without a
    sync the joined rooms are as before; nothing is looked up. *)
Lemma loop_shape fuel room target pill w :
  exists added,
    trace (loop fuel room target pill w).2 = trace w ++ added /\
    Forall (fun s => exists body,
              body_of target = Ok body /\
              s.1 = (star_room_id,
                     notice_text room pill body (event_id_of target), false))
      (sends added) /\
    length (delivered added) <= 1 /\
    (delivered added <> [] -> (loop fuel room target pill w).1 = Returned tt) /\
    syncs added <= length (sends added) /\
    (syncs added = 0 -> rooms (loop fuel room target pill w).2 = rooms w) /\
    lookups added = 0.
Proof.
  revert w. induction fuel as [|fuel IH]; intros w.
  { exists []. simpl. rewrite app_nil_r. repeat split; auto; done. }
  destruct (rooms w !! star_room_id) as [star_room|] eqn:Hin.
  2: { rewrite loop_not_joined by exact Hin. eexists. simpl.
       repeat split; eauto; cbn; try done; lia. }
  destruct (body_of target) as [body|e] eqn:Hbody.
  2: { pose proof (body_of_err _ _ Hbody) as ->.
       erewrite loop_no_body by eassumption. eexists. simpl.
       repeat split; eauto; cbn; try done; lia. }
  destruct (send_text_to_room (length (sends (trace w))) star_room_id
              (notice_text room pill body (event_id_of target)) false)
    as [res|e] eqn:Hsend.
  { erewrite loop_send_returns by eassumption. eexists. simpl.
    split; [reflexivity|]. cbn.
    repeat split; eauto; try lia; destruct res; cbn; lia. }
  assert ((exists msg, e = LocalProtocolError msg) \/
          (forall msg, e <> LocalProtocolError msg)) as [[msg ->]|Hother].
  { destruct e; try (right; congruence). left. eauto. }
  2: { erewrite loop_send_raises by eassumption.
       eexists. simpl. split; [reflexivity|]. cbn.
       repeat split; eauto; try done; lia. }
  destruct (sync (syncs (trace w))) as [rooms'|e] eqn:Hsync.
  2: { erewrite loop_sync_raises by eassumption. eexists. simpl.
       split; [reflexivity|]. cbn. repeat split; eauto; try done; lia. }
  erewrite loop_send_local_protocol_error by eassumption.
  match goal with |- context [loop fuel room target pill ?w1] =>
    destruct (IH w1) as (added & Htrace & Hsends & Hack & Hret & Hsyncs & _ & Hlook)
  end.
  eexists. split.
  { rewrite Htrace. simpl. rewrite <- app_assoc. reflexivity. }
  rewrite !sends_app, !delivered_app, !syncs_app, !lookups_app, !length_app. cbn.
  repeat split; auto; try lia.
  - constructor; [|exact Hsends]. eauto.
Qed.

(** Closes the cases in which the run added only log lines and lookups. *)
Ltac quiet :=
  eexists; split;
  [ simpl; rewrite <- ?app_assoc; reflexivity
  | cbn; repeat split; auto; try done; try lia ].

(** The same for the whole handler, which adds one lookup at most. *)
Lemma reaction_shape fuel room event reacted_to_id w :
  exists added,
    trace (handler fuel room event reacted_to_id w).2 = trace w ++ added /\
    Forall (fun s => s.1.1.1 = star_room_id /\ s.1.2 = false /\
              exists target body,
                room_get_event (room_id room) reacted_to_id
                  = RoomGetEventResponse target /\
                body_of target = Ok body /\
                s.1.1.2 = notice_text room (make_pill (sender_of target)) body
                            (event_id_of target))
      (sends added) /\
    length (delivered added) <= 1 /\
    (delivered added <> [] -> (handler fuel room event reacted_to_id w).1 = Returned tt) /\
    syncs added <= length (sends added) /\
    (syncs added = 0 -> rooms (handler fuel room event reacted_to_id w).2 = rooms w) /\
    lookups added <= 1.
Proof.
  destruct event as [ev|s src].
  2: { simpl. step. quiet. }
  unfold _reaction. step.
  destruct (room_get_event (room_id room) reacted_to_id) as [target|m] eqn:Hget; step.
  2: { quiet. }
  destruct (is_megolm target); step.
  { quiet. }
  case_bool_decide; simpl.
  2: { quiet. }
  case_bool_decide; simpl.
  { quiet. }
  destruct (reaction_content (ev_source ev)) as [key|e]; step.
  2: { quiet. }
  destruct (py_eq_str key star_glyph); simpl.
  2: { quiet. }
  match goal with |- context [loop fuel room target ?pill ?w1] =>
    destruct (loop_shape fuel room target pill w1)
      as (added & Htrace & Hsends & Hack & Hret & Hsyncs & Hrooms & Hlook)
  end.
  eexists. split.
  { rewrite Htrace. simpl. rewrite <- app_assoc. reflexivity. }
  rewrite !sends_app, !delivered_app, !syncs_app, !lookups_app. cbn.
  repeat split; auto; try lia.
  eapply Forall_impl; [exact Hsends|]. intros [[[r m] n] o] (body & Hbody & Heq).
  simpl in *. simplify_eq. eauto 10.
Qed.

(** X1.  Whatever the reaction and whatever the homeserver answers,
    every send attempt that the handler makes is addressed to the star
    room, is no notice-type message, and carries the notice built from the
    event that the lookup returned. *)
Theorem handler_sends_only_the_notice_to_the_star_room fuel room event reacted_to_id w :
  exists attempts,
    sends (trace (handler fuel room event reacted_to_id w).2)
      = sends (trace w) ++ attempts /\
    Forall (fun s => s.1.1.1 = star_room_id /\ s.1.2 = false /\
              exists target body,
                room_get_event (room_id room) reacted_to_id
                  = RoomGetEventResponse target /\
                body_of target = Ok body /\
                s.1.1.2 = notice_text room (make_pill (sender_of target)) body
                            (event_id_of target))
      attempts.
Proof.
  destruct (reaction_shape fuel room event reacted_to_id w)
    as (added & Htrace & Hsends & _).
  exists (sends added). by rewrite Htrace, sends_app.
Qed.

(** X2.  Handling one reaction leads to at most one acknowledged send
    and at most one lookup; when a send was acknowledged the handler has
    returned. *)
Theorem handler_delivers_at_most_once fuel room event reacted_to_id w :
  length (delivered (trace (handler fuel room event reacted_to_id w).2))
    <= length (delivered (trace w)) + 1 /\
  lookups (trace (handler fuel room event reacted_to_id w).2) <= lookups (trace w) + 1 /\
  (length (delivered (trace w))
     < length (delivered (trace (handler fuel room event reacted_to_id w).2)) ->
   (handler fuel room event reacted_to_id w).1 = Returned tt).
Proof.
  destruct (reaction_shape fuel room event reacted_to_id w)
    as (added & Htrace & _ & Hack & Hret & _ & _ & Hlook).
  rewrite Htrace, delivered_app, lookups_app, length_app.
  repeat split; try lia.
  intros Hmore. apply Hret. destruct (delivered added); simpl in *; [lia | done].
Qed.

(** X3.  The handler syncs only after a send attempt: a run never adds
    more syncs than send attempts, and a run without a sync leaves the
    joined rooms as they were. *)
Theorem handler_syncs_only_after_a_send fuel room event reacted_to_id w :
  syncs (trace (handler fuel room event reacted_to_id w).2) + length (sends (trace w))
    <= syncs (trace w) + length (sends (trace (handler fuel room event reacted_to_id w).2)) /\
  (syncs (trace (handler fuel room event reacted_to_id w).2) = syncs (trace w) ->
   rooms (handler fuel room event reacted_to_id w).2 = rooms w).
Proof.
  destruct (reaction_shape fuel room event reacted_to_id w)
    as (added & Htrace & _ & _ & _ & Hsyncs & Hrooms & _).
  rewrite Htrace, syncs_app, sends_app, length_app.
  split; [lia|]. intros Hsame. apply Hrooms. lia.
Qed.

End RunShape.

(** ** Retries *)

Section Retries.

Variable star_room_id : string.
Variable send_text_to_room : nat -> string -> string -> bool -> send_outcome.
Variable sync : nat -> sync_outcome.

Local Abbreviation loop := (delivery_loop star_room_id send_text_to_room sync).

(** X4.  The retry is not bounded by a count: when the first [n] send
    attempts raise [LocalProtocolError], each sync that follows still shows
    the star room, and the next attempt is acknowledged, the loop returns
    after [n + 1] attempts and [n] syncs, with one notice delivered. *)
Theorem loop_retries_until_the_send_succeeds n fuel room target pill body ack w :
  body_of target = Ok body ->
  is_Some (rooms w !! star_room_id) ->
  (forall k, k < n -> exists msg,
     send_text_to_room (length (sends (trace w)) + k) star_room_id
       (notice_text room pill body (event_id_of target)) false
       = SendRaises (LocalProtocolError msg)) ->
  (forall k, k < n -> exists rooms',
     sync (syncs (trace w) + k) = SyncDone rooms' /\
     is_Some (rooms' !! star_room_id)) ->
  send_text_to_room (length (sends (trace w)) + n) star_room_id
    (notice_text room pill body (event_id_of target)) false
    = SendReturns (RoomSendResponse ack) ->
  (loop (S n + fuel) room target pill w).1 = Returned tt /\
  length (sends (trace (loop (S n + fuel) room target pill w).2))
    = length (sends (trace w)) + n + 1 /\
  syncs (trace (loop (S n + fuel) room target pill w).2) = syncs (trace w) + n /\
  length (delivered (trace (loop (S n + fuel) room target pill w).2))
    = length (delivered (trace w)) + 1.
Proof.
  intros Hbody. revert w.
  induction n as [|n IH]; intros w [star_room Hin] Hfail Hsync Hok.
  - rewrite Nat.add_0_r in Hok.
    change (S 0 + fuel) with (S fuel).
    erewrite loop_send_returns by eassumption. simpl.
    rewrite sends_app, syncs_app, delivered_app, !length_app. cbn.
    repeat split; lia.
  - destruct (Hfail 0 ltac:(lia)) as [msg Hsend0].
    destruct (Hsync 0 ltac:(lia)) as (rooms' & Hsync0 & Hin').
    rewrite Nat.add_0_r in Hsend0, Hsync0.
    change (S (S n) + fuel) with (S (S n + fuel)).
    erewrite loop_send_local_protocol_error by eassumption.
    match goal with |- context [loop (S n + fuel) room target pill ?w1] =>
      destruct (IH w1) as (Hret & Hsends & Hsyncs & Hack)
    end.
    + exact Hin'.
    + intros k Hk. destruct (Hfail (S k) ltac:(lia)) as [m Hm]. exists m.
      simpl. rewrite sends_app, length_app. cbn.
      by replace (length (sends (trace w)) + 1 + k)
        with (length (sends (trace w)) + S k) by lia.
    + intros k Hk. destruct (Hsync (S k) ltac:(lia)) as (r & Hr & Hr').
      exists r. split; [|exact Hr']. simpl. rewrite syncs_app. cbn.
      by replace (syncs (trace w) + 1 + k) with (syncs (trace w) + S k) by lia.
    + simpl. rewrite sends_app, length_app. cbn.
      by replace (length (sends (trace w)) + 1 + n)
        with (length (sends (trace w)) + S n) by lia.
    + rewrite Hret, Hsends, Hsyncs, Hack. simpl.
      rewrite sends_app, syncs_app, delivered_app, !length_app. cbn.
      repeat split; lia.
Qed.

(** X5.  While every send attempt raises [LocalProtocolError] and every
    sync still shows the star room, the loop does not end: whatever the
    fuel, it is used up, with one send attempt and one sync for each pass and
    nothing delivered. *)
Theorem loop_never_ends_while_sends_fail fuel room target pill body w :
  body_of target = Ok body ->
  is_Some (rooms w !! star_room_id) ->
  (forall k, exists msg,
     send_text_to_room (length (sends (trace w)) + k) star_room_id
       (notice_text room pill body (event_id_of target)) false
       = SendRaises (LocalProtocolError msg)) ->
  (forall k, exists rooms',
     sync (syncs (trace w) + k) = SyncDone rooms' /\
     is_Some (rooms' !! star_room_id)) ->
  (loop fuel room target pill w).1 = OutOfFuel /\
  length (sends (trace (loop fuel room target pill w).2))
    = length (sends (trace w)) + fuel /\
  syncs (trace (loop fuel room target pill w).2) = syncs (trace w) + fuel /\
  delivered (trace (loop fuel room target pill w).2) = delivered (trace w).
Proof.
  intros Hbody. revert w.
  induction fuel as [|fuel IH]; intros w [star_room Hin] Hfail Hsync.
  { simpl. repeat split; lia. }
  destruct (Hfail 0) as [msg Hsend0].
  destruct (Hsync 0) as (rooms' & Hsync0 & Hin').
  rewrite Nat.add_0_r in Hsend0, Hsync0.
  erewrite loop_send_local_protocol_error by eassumption.
  match goal with |- context [loop fuel room target pill ?w1] =>
    destruct (IH w1) as (Hret & Hsends & Hsyncs & Hack)
  end.
  - exact Hin'.
  - intros k. destruct (Hfail (S k)) as [m Hm]. exists m.
    simpl. rewrite sends_app, length_app. cbn.
    by replace (length (sends (trace w)) + 1 + k)
      with (length (sends (trace w)) + S k) by lia.
  - intros k. destruct (Hsync (S k)) as (r & Hr & Hr').
    exists r. split; [|exact Hr']. simpl. rewrite syncs_app. cbn.
    by replace (syncs (trace w) + 1 + k) with (syncs (trace w) + S k) by lia.
  - rewrite Hret, Hsends, Hsyncs, Hack. simpl.
    rewrite sends_app, syncs_app, delivered_app, !length_app, app_nil_r. cbn.
    repeat split; lia.
Qed.

End Retries.

(** ** Ways out of the delivery loop *)

Section Outcomes.

Variable star_room_id : string.
Variable user_id : string.
Variable make_pill : string -> string.
Variable room_get_event : string -> json -> get_event_response.
Variable send_text_to_room : nat -> string -> string -> bool -> send_outcome.
Variable sync : nat -> sync_outcome.

Local Abbreviation loop := (delivery_loop star_room_id send_text_to_room sync).
Local Abbreviation handler :=
  (_reaction star_room_id user_id make_pill room_get_event send_text_to_room sync).

(** X6.  An error response of the homeserver is a returned value like
    any other: it is logged and the loop returns.  The send is not tried
    again, nothing is synced, nothing counts as delivered. *)
Theorem rejected_send_is_not_retried fuel room target pill body message w :
  is_Some (rooms w !! star_room_id) ->
  body_of target = Ok body ->
  send_text_to_room (length (sends (trace w))) star_room_id
    (notice_text room pill body (event_id_of target)) false
    = SendReturns (RoomSendError message) ->
  (loop (S fuel) room target pill w).1 = Returned tt /\
  length (sends (trace (loop (S fuel) room target pill w).2))
    = length (sends (trace w)) + 1 /\
  syncs (trace (loop (S fuel) room target pill w).2) = syncs (trace w) /\
  delivered (trace (loop (S fuel) room target pill w).2) = delivered (trace w).
Proof.
  intros [star_room Hin] Hbody Hsend.
  erewrite loop_send_returns by eassumption. simpl.
  rewrite sends_app, syncs_app, delivered_app, length_app, app_nil_r. cbn.
  repeat split; lia.
Qed.

(** X7.  Only [LocalProtocolError] is caught.  Any other exception of
    [send_text_to_room] leaves the loop as it is raised, after that one
    attempt and without a sync. *)
Theorem other_send_error_leaves_the_loop fuel room target pill body e w :
  is_Some (rooms w !! star_room_id) ->
  body_of target = Ok body ->
  send_text_to_room (length (sends (trace w))) star_room_id
    (notice_text room pill body (event_id_of target)) false = SendRaises e ->
  (forall msg, e <> LocalProtocolError msg) ->
  (loop (S fuel) room target pill w).1 = Raised e /\
  length (sends (trace (loop (S fuel) room target pill w).2))
    = length (sends (trace w)) + 1 /\
  syncs (trace (loop (S fuel) room target pill w).2) = syncs (trace w).
Proof.
  intros [star_room Hin] Hbody Hsend Hother.
  erewrite loop_send_raises by eassumption. simpl.
  rewrite sends_app, syncs_app, length_app. cbn. repeat split; lia.
Qed.

(** X8.  The sync of line 105 is outside the [try]: when it raises,
    even a [LocalProtocolError], the exception leaves the loop and the send
    is not tried again. *)
Theorem failed_resync_leaves_the_loop fuel room target pill body msg e w :
  is_Some (rooms w !! star_room_id) ->
  body_of target = Ok body ->
  send_text_to_room (length (sends (trace w))) star_room_id
    (notice_text room pill body (event_id_of target)) false
    = SendRaises (LocalProtocolError msg) ->
  sync (syncs (trace w)) = SyncRaises e ->
  (loop (S fuel) room target pill w).1 = Raised e /\
  length (sends (trace (loop (S fuel) room target pill w).2))
    = length (sends (trace w)) + 1 /\
  syncs (trace (loop (S fuel) room target pill w).2) = syncs (trace w) + 1.
Proof.
  intros [star_room Hin] Hbody Hsend Hsync.
  erewrite loop_sync_raises by eassumption. simpl.
  rewrite sends_app, syncs_app, length_app. cbn. repeat split; lia.
Qed.

(** X9.  When the sync after a [LocalProtocolError] no longer shows the
    star room, the second pass stops at the membership test: the loop
    returns after one send attempt and one sync, with nothing delivered. *)
Theorem resync_without_the_room_abandons fuel room target pill body msg rooms' w :
  is_Some (rooms w !! star_room_id) ->
  body_of target = Ok body ->
  send_text_to_room (length (sends (trace w))) star_room_id
    (notice_text room pill body (event_id_of target)) false
    = SendRaises (LocalProtocolError msg) ->
  sync (syncs (trace w)) = SyncDone rooms' ->
  rooms' !! star_room_id = None ->
  (loop (S (S fuel)) room target pill w).1 = Returned tt /\
  length (sends (trace (loop (S (S fuel)) room target pill w).2))
    = length (sends (trace w)) + 1 /\
  syncs (trace (loop (S (S fuel)) room target pill w).2) = syncs (trace w) + 1 /\
  delivered (trace (loop (S (S fuel)) room target pill w).2) = delivered (trace w) /\
  rooms (loop (S (S fuel)) room target pill w).2 = rooms'.
Proof.
  intros [star_room Hin] Hbody Hsend Hsync Hout.
  erewrite loop_send_local_protocol_error by eassumption.
  rewrite loop_not_joined by exact Hout. simpl.
  rewrite <- app_assoc, sends_app, syncs_app, delivered_app, length_app, app_nil_r.
  cbn. repeat split; lia.
Qed.

(** X10.  A reaction inside the star room is dropped, also when it is a
    star of the bot itself: the handler returns without a send attempt and
    without a sync. *)
Theorem reaction_in_the_star_room_sends_nothing fuel room event reacted_to_id w :
  room_id room = star_room_id ->
  (handler fuel room event reacted_to_id w).1 = Returned tt /\
  sends (trace (handler fuel room event reacted_to_id w).2) = sends (trace w) /\
  syncs (trace (handler fuel room event reacted_to_id w).2) = syncs (trace w).
Proof.
  intros Hstar. destruct event as [ev|s src]; [|by (simpl; step; recount)].
  unfold _reaction. step.
  destruct (room_get_event _ _) as [tgt|m]; step; [|by recount].
  destruct (is_megolm tgt); step; [by recount|].
  case_bool_decide; simpl; [|by recount].
  case_bool_decide; [|done]. simpl. by recount.
Qed.

(** X11.  An undecrypted reaction, a failed lookup and an undecrypted
    target each end the handler, whoever sent the reaction and whatever its
    key is: it returns without a send attempt and without a sync, and an
    undecrypted reaction is not even looked up. *)
Theorem unreadable_events_are_dropped fuel room event reacted_to_id w :
  (exists sender source, event = Megolm sender source) \/
  (exists message,
     room_get_event (room_id room) reacted_to_id = RoomGetEventError message) \/
  (exists sender event_id,
     room_get_event (room_id room) reacted_to_id
       = RoomGetEventResponse (TargetMegolm sender event_id)) ->
  (handler fuel room event reacted_to_id w).1 = Returned tt /\
  sends (trace (handler fuel room event reacted_to_id w).2) = sends (trace w) /\
  syncs (trace (handler fuel room event reacted_to_id w).2) = syncs (trace w) /\
  ((exists sender source, event = Megolm sender source) ->
   lookups (trace (handler fuel room event reacted_to_id w).2) = lookups (trace w)).
Proof.
  intros Hbad. destruct event as [ev|s src].
  2: { simpl. step. recount. rewrite lookups_app. cbn. repeat split; auto; lia. }
  destruct Hbad as [(? & ? & ?)|Hbad]; [done|].
  unfold _reaction. step.
  destruct Hbad as [(m & ->)|(s & i & ->)]; step; recount;
    (repeat split; auto; intros (? & ? & ?); done).
Qed.

End Outcomes.

(** ** More about the router *)

(** X12.  An event of any type other than ["m.reaction"] is only
    logged: its payload is not read, so even a payload that would make the
    lookups raise does no harm, and the handler is not run. *)
Theorem other_event_types_are_only_logged
    (handler : MatrixRoom -> Event -> json -> M unit) room event w :
  ev_type event <> "m.reaction" ->
  unknown_with handler room event w =
    (Returned tt,
     emits w [Log DEBUG (LText ("Got unknown event with type to " +:+ ev_type event
                                +:+ " from " +:+ ev_sender event +:+ " in "
                                +:+ room_id room +:+ ".")) []]).
Proof.
  intros Htype. unfold unknown_with. case_bool_decide; [done|]. by step.
Qed.

(** X13.  A target id that is present but falsy (the empty string,
    [null], [0], [false], an empty list or dictionary) is treated like a
    missing one: the event is logged and the handler is not run. *)
Theorem falsy_target_is_not_dispatched
    (handler : MatrixRoom -> Event -> json -> M unit) room event rel target w :
  relates_to (ev_source event) = Ok (JDict rel) ->
  rel !! "event_id" = Some target ->
  truthy target = false ->
  unknown_with handler room event w =
    (Returned tt,
     emits w [Log DEBUG (LText ("Got unknown event with type to " +:+ ev_type event
                                +:+ " from " +:+ ev_sender event +:+ " in "
                                +:+ room_id room +:+ ".")) []]).
Proof.
  intros Hrel Hid Hfalsy. unfold unknown_with.
  case_bool_decide; step; [|done].
  rewrite Hrel. step. rewrite Hid. simpl. rewrite Hfalsy. by step.
Qed.

(** X14.  For an ["m.reaction"] whose relation has a truthy target id
    and the type ["m.annotation"], the router is the handler: it runs the
    handler on the same room, the same event and that target id, and ends
    as the handler ends, in the world the handler left, without a log line
    of its own. *)
Theorem dispatch_runs_the_handler
    (handler : MatrixRoom -> Event -> json -> M unit) room event rel target w :
  ev_type event = "m.reaction" ->
  relates_to (ev_source event) = Ok (JDict rel) ->
  rel !! "event_id" = Some target ->
  truthy target = true ->
  rel !! "rel_type" = Some (JStr "m.annotation") ->
  unknown_with handler room event w = handler room (Unknown event) target w.
Proof.
  intros Hty Hrel Hid Htruthy Htype.
  rewrite (annotation_is_dispatched handler room event rel target w) by assumption.
  unfold bind, ret. by destruct (handler room (Unknown event) target w) as [[[]| |] ?].
Qed.

(** X15.  An ["m.reaction"] whose content, or whose relation, is
    present but is no dictionary makes the router raise [AttributeError]:
    nothing is logged and the handler is not run. *)
Theorem malformed_relation_stops_the_router
    (handler : MatrixRoom -> Event -> json -> M unit) room event w :
  ev_type event = "m.reaction" ->
  (exists v, ev_source event !! "content" = Some v /\ forall d, v <> JDict d) \/
  (exists content v,
     ev_source event !! "content" = Some (JDict content) /\
     content !! "m.relates_to" = Some v /\ forall d, v <> JDict d) ->
  unknown_with handler room event w = (Raised (AttributeError "get"), w).
Proof.
  intros Hty Hbad. destruct Hbad as [(v & Hc & Hv)|(content & v & Hc & Hr & Hv)].
  - unfold unknown_with. case_bool_decide; [|done]. step.
    unfold relates_to. simpl. rewrite Hc. simpl.
    destruct v; try done. by destruct (Hv d).
  - apply (malformed_relation_raises handler room event v w Hty); [|exact Hv].
    unfold relates_to. simpl. rewrite Hc. simpl. by rewrite Hr.
Qed.

(** X16.  Router and handler together: a star reaction of the bot,
    received as an ["m.reaction"] annotation outside the star room, makes
    the bot look up the event that the relation names, in the room of the
    reaction, and send the notice for it once, when the star room is joined
    and the send is acknowledged. *)
Theorem router_relays_a_star star_room_id user_id make_pill room_get_event
    send_text_to_room sync fuel room event content rel target
    sender event_id body star_room ack w :
  ev_type event = "m.reaction" ->
  ev_source event !! "content" = Some (JDict content) ->
  content !! "m.relates_to" = Some (JDict rel) ->
  rel !! "event_id" = Some target ->
  truthy target = true ->
  rel !! "rel_type" = Some (JStr "m.annotation") ->
  rel !! "key" = Some (JStr star_glyph) ->
  ev_sender event = user_id ->
  room_id room <> star_room_id ->
  room_get_event (room_id room) target
    = RoomGetEventResponse (TargetMessage sender event_id body) ->
  rooms w !! star_room_id = Some star_room ->
  send_text_to_room (length (sends (trace w))) star_room_id
    (notice_text room (make_pill sender) body event_id) false
    = SendReturns (RoomSendResponse ack) ->
  unknown star_room_id user_id make_pill room_get_event send_text_to_room sync
    (S fuel) room event w =
  (Returned tt,
   emits w [Log DEBUG (LText ("Got reaction to " +:+ room_id room +:+ " from "
                              +:+ ev_sender event +:+ ".")) [];
            RoomGetEvent (room_id room) target;
            Log INFO (LText "Are we in the room?") [];
            Log INFO (LBool true) [];
            Log INFO (LRoom star_room) [];
            SendText star_room_id
              (notice_text room (make_pill sender) body event_id) false
              (SendReturns (RoomSendResponse ack));
            Log INFO (LSend (RoomSendResponse ack)) []]).
Proof.
  intros Hty Hc Hr Hid Htruthy Htype Hkey Hme Hroom Hget Hin Hsend.
  assert (relates_to (ev_source event) = Ok (JDict rel)) as Hrel.
  { unfold relates_to. simpl. rewrite Hc. simpl. by rewrite Hr. }
  unfold unknown.
  rewrite (annotation_is_dispatched _ room event rel target w) by assumption.
  erewrite bind_returned; [reflexivity|].
  rewrite (reaction_accepted _ _ _ _ _ _ _ _ _ _ _ _ Hget eq_refl Hme Hroom).
  2: { unfold reaction_content. rewrite Hrel. simpl. by rewrite Hkey. }
  erewrite loop_send_returns; [| exact Hin | reflexivity |].
  - by rewrite emits_emits.
  - simpl. recount. exact Hsend.
Qed.

(** ** The reconnect loop *)

Section Reconnect.

Variable star_room_id : string.
Variable user_id : string.
Variable authenticate : M bool.
Variable join : nat -> string -> join_result.
Variable sync_forever : nat -> forever_outcome.

Local Abbreviation session' :=
  (session star_room_id user_id authenticate join sync_forever).
Local Abbreviation main' :=
  (main star_room_id user_id authenticate join sync_forever).

(** The session of a client that is logged in and has the star room. *)
Lemma session_joined w w1 star_room :
  authenticate w = (Returned true, w1) ->
  rooms w1 !! star_room_id = Some star_room ->
  session' w =
    (match sync_forever (forevers (trace w1)) with
     | ForeverRaises e => Raised e
     | ForeverReturns => Returned None
     end,
     emits w1 [Log INFO (LText ("Logged in as " +:+ user_id)) [];
               Log INFO (LText "Joining star room") [];
               Log INFO (LText "We're already joined") [];
               SyncForever 9000000 true]).
Proof.
  intros Hauth Hin. unfold session. erewrite bind_returned by exact Hauth.
  cbv beta iota. unfold join_star_room. step. rewrite Hin. step.
  rewrite !forevers_app. cbn. rewrite !Nat.add_0_r.
  by destruct (sync_forever (forevers (trace w1))).
Qed.

(** One pass of [while True], from the outcome of the [try] body. *)
Lemma main_pass fuel w r w1 :
  session' w = (r, w1) ->
  main' (S fuel) w =
    match r with
    | Returned (Some b) => (Returned b, emits w1 [Close])
    | Returned None => main' fuel (emits w1 [Close])
    | Raised ClientConnectionError | Raised ServerDisconnectedError =>
        main' fuel
          (emits w1 [Log WARNING
                       (LText "Unable to connect to homeserver, retrying in 15s...") [];
                     Sleep 15; Close])
    | Raised e => (Raised e, emits w1 [Close])
    | OutOfFuel => (OutOfFuel, emits w1 [Close])
    end.
Proof.
  intros Hsession. simpl. unfold bind at 1, try_finally, try_except.
  rewrite Hsession. destruct r as [[b|]|e|]; try destruct e; by step.
Qed.

(** X17.  When the login fails, [main] returns [False] at once: the
    client is closed, nothing is joined, [sync_forever] is not entered and
    the login is not tried again. *)
Theorem failed_login_ends_main fuel w w1 :
  authenticate w = (Returned false, w1) ->
  main' (S fuel) w = (Returned false, emits w1 [Close]).
Proof.
  intros Hauth. apply (main_pass fuel w (Returned (Some false)) w1).
  unfold session. by erewrite bind_returned by exact Hauth.
Qed.

(** X18.  When the connection drops during [sync_forever], a warning is
    logged, the process sleeps 15 seconds, the client is closed and the
    loop starts over from the login.  A client that already has the star
    room makes no join attempt. *)
Theorem dropped_connection_is_retried fuel w w1 star_room e :
  authenticate w = (Returned true, w1) ->
  rooms w1 !! star_room_id = Some star_room ->
  sync_forever (forevers (trace w1)) = ForeverRaises e ->
  e = ClientConnectionError \/ e = ServerDisconnectedError ->
  main' (S fuel) w =
    main' fuel
      (emits w1 [Log INFO (LText ("Logged in as " +:+ user_id)) [];
                 Log INFO (LText "Joining star room") [];
                 Log INFO (LText "We're already joined") [];
                 SyncForever 9000000 true;
                 Log WARNING
                   (LText "Unable to connect to homeserver, retrying in 15s...") [];
                 Sleep 15;
                 Close]).
Proof.
  intros Hauth Hin Hdrop He.
  pose proof (session_joined w w1 star_room Hauth Hin) as Hsession.
  rewrite Hdrop in Hsession. rewrite (main_pass fuel _ _ _ Hsession).
  destruct He as [-> | ->]; by rewrite emits_emits.
Qed.

(** X19.  When [sync_forever] returns, the client is closed and the
    loop starts over at once, without warning and without sleeping. *)
Theorem stopped_sync_forever_restarts fuel w w1 star_room :
  authenticate w = (Returned true, w1) ->
  rooms w1 !! star_room_id = Some star_room ->
  sync_forever (forevers (trace w1)) = ForeverReturns ->
  main' (S fuel) w =
    main' fuel
      (emits w1 [Log INFO (LText ("Logged in as " +:+ user_id)) [];
                 Log INFO (LText "Joining star room") [];
                 Log INFO (LText "We're already joined") [];
                 SyncForever 9000000 true;
                 Close]).
Proof.
  intros Hauth Hin Hstop.
  pose proof (session_joined w w1 star_room Hauth Hin) as Hsession.
  rewrite Hstop in Hsession. rewrite (main_pass fuel _ _ _ Hsession).
  by rewrite emits_emits.
Qed.

(** X20.  An exception of [sync_forever] that is no connection error
    ends [main]: the client is closed and the exception goes on, with no
    warning, no sleep and no new attempt. *)
Theorem other_error_ends_main fuel w w1 star_room e :
  authenticate w = (Returned true, w1) ->
  rooms w1 !! star_room_id = Some star_room ->
  sync_forever (forevers (trace w1)) = ForeverRaises e ->
  e <> ClientConnectionError ->
  e <> ServerDisconnectedError ->
  main' (S fuel) w =
    (Raised e,
     emits w1 [Log INFO (LText ("Logged in as " +:+ user_id)) [];
               Log INFO (LText "Joining star room") [];
               Log INFO (LText "We're already joined") [];
               SyncForever 9000000 true;
               Close]).
Proof.
  intros Hauth Hin Hraise Hc Hs.
  pose proof (session_joined w w1 star_room Hauth Hin) as Hsession.
  rewrite Hraise in Hsession. rewrite (main_pass fuel _ _ _ Hsession).
  destruct e; try done; by rewrite emits_emits.
Qed.

(** X21.  A connection error while the session is being restored or
    opened is retried like one during [sync_forever]: warning, 15 seconds
    of sleep, close, and the loop starts over. *)
Theorem offline_login_is_retried fuel w w1 e :
  authenticate w = (Raised e, w1) ->
  e = ClientConnectionError \/ e = ServerDisconnectedError ->
  main' (S fuel) w =
    main' fuel
      (emits w1 [Log WARNING
                   (LText "Unable to connect to homeserver, retrying in 15s...") [];
                 Sleep 15;
                 Close]).
Proof.
  intros Hauth He.
  assert (session' w = (Raised e, w1)) as Hsession.
  { unfold session. by erewrite bind_raised by exact Hauth. }
  rewrite (main_pass fuel _ _ _ Hsession). by destruct He as [-> | ->].
Qed.


(** X23.  Whenever [main] ends, by returning or by an exception, the
    last thing it did was to close the client. *)
Theorem main_always_closes_the_client fuel w :
  (main star_room_id user_id authenticate join sync_forever fuel w).1 <> OutOfFuel ->
  exists t,
    trace (main star_room_id user_id authenticate join sync_forever fuel w).2
      = t ++ [Close].
Proof.
  revert w. induction fuel as [|fuel IH]; intros w; [done|].
  destruct (session' w) as [r w1] eqn:Hsession.
  rewrite (main_pass fuel _ _ _ Hsession).
  destruct r as [[b|]|e|]; [| | |done].
  - intros _. by eexists.
  - apply IH.
  - destruct e; try (intros _; by eexists); apply IH.
Qed.

(** X24.  A client without the star room whose three joins are accepted
    logs the answer to each and then enters [sync_forever]: the join loop
    asks three times although the first answer was already a success. *)
Theorem accepted_joins_enter_the_receive_loop w w1 j0 j1 j2 :
  authenticate w = (Returned true, w1) ->
  rooms w1 !! star_room_id = None ->
  join (joins (trace w1)) star_room_id = JoinResponse j0 ->
  join (S (joins (trace w1))) star_room_id = JoinResponse j1 ->
  join (S (S (joins (trace w1)))) star_room_id = JoinResponse j2 ->
  joins (trace (session' w).2) = joins (trace w1) + 3 /\
  forevers (trace (session' w).2) = forevers (trace w1) + 1 /\
  (session' w).1 =
    match sync_forever (forevers (trace w1)) with
    | ForeverRaises e => Raised e
    | ForeverReturns => Returned None
    end.
Proof.
  intros Hauth Hout H0 H1 H2.
  unfold session. erewrite bind_returned by exact Hauth. cbv beta iota.
  erewrite bind_returned by reflexivity.
  erewrite bind_returned.
  2: { apply (join_star_room_accepted _ _ _ j0 j1 j2);
       [exact Hout | simpl; recount; assumption..]. }
  rewrite emit_to_emits, emits_emits. unfold bind, call_sync_forever, ret. simpl.
  rewrite !forevers_app. cbn. rewrite !Nat.add_0_r.
  destruct (sync_forever (forevers (trace w1))); simpl;
    rewrite <- !app_assoc, !joins_app, !forevers_app; cbn; repeat split; lia.
Qed.

End Reconnect.

(** ** The link *)

(** X25.  Two notices link to the same address only when they are about
    the same event of the same room: for room ids without a slash and
    event ids without a question mark, different pairs give different
    links. *)
Theorem different_events_get_different_links (r1 e1 r2 e2 : string) :
  has_char "/" r1 = false -> has_char "?" e1 = false ->
  has_char "/" r2 = false -> has_char "?" e2 = false ->
  (r1, e1) <> (r2, e2) ->
  deep_link r1 e1 <> deep_link r2 e2.
Proof.
  intros Hr1 He1 Hr2 He2 Hne Heq.
  destruct (deep_link_inj r1 e1 r2 e2 Hr1 He1 Hr2 He2 Heq) as [-> ->]. done.
Qed.

(** ** The further properties at the deployment above *)

Lemma loop_retries_until_the_send_succeeds_witness :
  (Demo.run_loop Demo.send_fourth Demo.sync 4 Demo.w_joined).1 = Returned tt /\
  length (sends (trace (Demo.run_loop Demo.send_fourth Demo.sync 4 Demo.w_joined).2)) = 4 /\
  syncs (trace (Demo.run_loop Demo.send_fourth Demo.sync 4 Demo.w_joined).2) = 3 /\
  length (delivered (trace (Demo.run_loop Demo.send_fourth Demo.sync 4 Demo.w_joined).2)) = 1.
Proof.
  apply (loop_retries_until_the_send_succeeds Demo.star_room_id Demo.send_fourth
           Demo.sync 3 0 Demo.origin Demo.target (Demo.make_pill "@alice:lant.uk")
           "hello world" "$notice" Demo.w_joined).
  - reflexivity.
  - exists Demo.star_room. reflexivity.
  - intros k Hk. exists "No such room".
    destruct k as [|[|[|k]]]; [reflexivity..|lia].
  - intros k Hk. exists Demo.joined. split; [reflexivity|].
    exists Demo.star_room. reflexivity.
  - reflexivity.
Defined.

Lemma loop_never_ends_while_sends_fail_witness :
  (Demo.run_loop Demo.send_never Demo.sync 5 Demo.w_joined).1 = OutOfFuel /\
  length (sends (trace (Demo.run_loop Demo.send_never Demo.sync 5 Demo.w_joined).2)) = 5 /\
  syncs (trace (Demo.run_loop Demo.send_never Demo.sync 5 Demo.w_joined).2) = 5 /\
  delivered (trace (Demo.run_loop Demo.send_never Demo.sync 5 Demo.w_joined).2) = [].
Proof.
  apply (loop_never_ends_while_sends_fail Demo.star_room_id Demo.send_never
           Demo.sync 5 Demo.origin Demo.target (Demo.make_pill "@alice:lant.uk")
           "hello world" Demo.w_joined).
  - reflexivity.
  - exists Demo.star_room. reflexivity.
  - intros k. exists "No such room". reflexivity.
  - intros k. exists Demo.joined. split; [reflexivity|].
    exists Demo.star_room. reflexivity.
Defined.

Lemma rejected_send_is_not_retried_witness :
  Demo.send_rejected 0 Demo.star_room_id Demo.notice false
    = SendReturns (RoomSendError "M_FORBIDDEN") /\
  (Demo.run_loop Demo.send_rejected Demo.sync 3 Demo.w_joined).1 = Returned tt /\
  length (sends (trace (Demo.run_loop Demo.send_rejected Demo.sync 3 Demo.w_joined).2)) = 1 /\
  syncs (trace (Demo.run_loop Demo.send_rejected Demo.sync 3 Demo.w_joined).2) = 0 /\
  delivered (trace (Demo.run_loop Demo.send_rejected Demo.sync 3 Demo.w_joined).2) = [].
Proof.
  split; [reflexivity|].
  apply (rejected_send_is_not_retried Demo.star_room_id Demo.send_rejected
           Demo.sync 2 Demo.origin Demo.target (Demo.make_pill "@alice:lant.uk")
           "hello world" "M_FORBIDDEN" Demo.w_joined).
  - exists Demo.star_room. reflexivity.
  - reflexivity.
  - reflexivity.
Defined.

Lemma other_send_error_leaves_the_loop_witness :
  Demo.send_disconnected 0 Demo.star_room_id Demo.notice false
    = SendRaises ServerDisconnectedError /\
  (Demo.run_loop Demo.send_disconnected Demo.sync 3 Demo.w_joined).1
    = Raised ServerDisconnectedError /\
  length (sends (trace (Demo.run_loop Demo.send_disconnected Demo.sync 3
                          Demo.w_joined).2)) = 1 /\
  syncs (trace (Demo.run_loop Demo.send_disconnected Demo.sync 3 Demo.w_joined).2) = 0.
Proof.
  split; [reflexivity|].
  apply (other_send_error_leaves_the_loop Demo.star_room_id Demo.send_disconnected
           Demo.sync 2 Demo.origin Demo.target (Demo.make_pill "@alice:lant.uk")
           "hello world" ServerDisconnectedError Demo.w_joined).
  - exists Demo.star_room. reflexivity.
  - reflexivity.
  - reflexivity.
  - intros msg H. discriminate H.
Defined.

Lemma failed_resync_leaves_the_loop_witness :
  Demo.sync_offline 0 = SyncRaises ClientConnectionError /\
  (Demo.run_loop Demo.send_never Demo.sync_offline 3 Demo.w_joined).1
    = Raised ClientConnectionError /\
  length (sends (trace (Demo.run_loop Demo.send_never Demo.sync_offline 3
                          Demo.w_joined).2)) = 1 /\
  syncs (trace (Demo.run_loop Demo.send_never Demo.sync_offline 3 Demo.w_joined).2) = 1.
Proof.
  split; [reflexivity|].
  apply (failed_resync_leaves_the_loop Demo.star_room_id Demo.send_never
           Demo.sync_offline 2 Demo.origin Demo.target (Demo.make_pill "@alice:lant.uk")
           "hello world" "No such room" ClientConnectionError Demo.w_joined).
  - exists Demo.star_room. reflexivity.
  - reflexivity.
  - reflexivity.
  - reflexivity.
Defined.

Lemma resync_without_the_room_abandons_witness :
  Demo.sync_left 0 = SyncDone ∅ /\
  (Demo.run_loop Demo.send_never Demo.sync_left 3 Demo.w_joined).1 = Returned tt /\
  length (sends (trace (Demo.run_loop Demo.send_never Demo.sync_left 3
                          Demo.w_joined).2)) = 1 /\
  syncs (trace (Demo.run_loop Demo.send_never Demo.sync_left 3 Demo.w_joined).2) = 1 /\
  delivered (trace (Demo.run_loop Demo.send_never Demo.sync_left 3 Demo.w_joined).2) = [] /\
  rooms (Demo.run_loop Demo.send_never Demo.sync_left 3 Demo.w_joined).2 = ∅.
Proof.
  split; [reflexivity|].
  apply (resync_without_the_room_abandons Demo.star_room_id Demo.send_never
           Demo.sync_left 1 Demo.origin Demo.target (Demo.make_pill "@alice:lant.uk")
           "hello world" "No such room" ∅ Demo.w_joined).
  - exists Demo.star_room. reflexivity.
  - reflexivity.
  - reflexivity.
  - reflexivity.
  - reflexivity.
Defined.

Lemma reaction_in_the_star_room_sends_nothing_witness :
  room_id Demo.star_room = Demo.star_room_id /\
  (_reaction Demo.star_room_id Demo.user_id Demo.make_pill Demo.room_get_event
     Demo.send_ok Demo.sync 2 Demo.star_room (Unknown Demo.star) (JStr "$target")
     Demo.w_joined).1 = Returned tt /\
  sends (trace (_reaction Demo.star_room_id Demo.user_id Demo.make_pill
                  Demo.room_get_event Demo.send_ok Demo.sync 2 Demo.star_room
                  (Unknown Demo.star) (JStr "$target") Demo.w_joined).2) = [] /\
  syncs (trace (_reaction Demo.star_room_id Demo.user_id Demo.make_pill
                  Demo.room_get_event Demo.send_ok Demo.sync 2 Demo.star_room
                  (Unknown Demo.star) (JStr "$target") Demo.w_joined).2) = 0.
Proof.
  split; [reflexivity|].
  exact (reaction_in_the_star_room_sends_nothing Demo.star_room_id Demo.user_id
           Demo.make_pill Demo.room_get_event Demo.send_ok Demo.sync 2 Demo.star_room
           (Unknown Demo.star) (JStr "$target") Demo.w_joined eq_refl).
Defined.

Lemma unreadable_events_are_dropped_witness :
  (_reaction Demo.star_room_id Demo.user_id Demo.make_pill Demo.room_get_event
     Demo.send_ok Demo.sync 2 Demo.origin Demo.encrypted_star (JStr "$target")
     Demo.w_joined).1 = Returned tt /\
  sends (trace (_reaction Demo.star_room_id Demo.user_id Demo.make_pill
                  Demo.room_get_event Demo.send_ok Demo.sync 2 Demo.origin
                  Demo.encrypted_star (JStr "$target") Demo.w_joined).2) = [].
Proof.
  destruct (unreadable_events_are_dropped Demo.star_room_id Demo.user_id
              Demo.make_pill Demo.room_get_event Demo.send_ok Demo.sync 2 Demo.origin
              Demo.encrypted_star (JStr "$target") Demo.w_joined)
    as (Hret & Hsends & _).
  - left. eexists _, _. reflexivity.
  - split; [exact Hret | exact Hsends].
Defined.

Lemma other_event_types_are_only_logged_witness :
  ev_type Demo.sticker <> "m.reaction" /\
  Demo.run_unknown Demo.send_ok Demo.sticker Demo.w_joined =
  (Returned tt,
   emits Demo.w_joined
     [Log DEBUG (LText ("Got unknown event with type to " +:+ ev_type Demo.sticker
                        +:+ " from " +:+ ev_sender Demo.sticker +:+ " in "
                        +:+ room_id Demo.origin +:+ ".")) []]).
Proof.
  assert (ev_type Demo.sticker <> "m.reaction") as Htype
    by (intros H; vm_compute in H; discriminate H).
  split; [exact Htype|].
  exact (other_event_types_are_only_logged
           (_reaction Demo.star_room_id Demo.user_id Demo.make_pill Demo.room_get_event
              Demo.send_ok Demo.sync 2)
           Demo.origin Demo.sticker Demo.w_joined Htype).
Defined.

Lemma falsy_target_is_not_dispatched_witness :
  truthy (JStr EmptyString) = false /\
  Demo.run_unknown Demo.send_ok Demo.empty_target Demo.w_joined =
  (Returned tt,
   emits Demo.w_joined
     [Log DEBUG (LText ("Got unknown event with type to " +:+ ev_type Demo.empty_target
                        +:+ " from " +:+ ev_sender Demo.empty_target +:+ " in "
                        +:+ room_id Demo.origin +:+ ".")) []]).
Proof.
  split; [reflexivity|].
  exact (falsy_target_is_not_dispatched
           (_reaction Demo.star_room_id Demo.user_id Demo.make_pill Demo.room_get_event
              Demo.send_ok Demo.sync 2)
           Demo.origin Demo.empty_target _ (JStr EmptyString) Demo.w_joined
           eq_refl eq_refl eq_refl).
Defined.

Lemma dispatch_runs_the_handler_witness :
  Demo.run_unknown Demo.send_ok Demo.star Demo.w_joined
    = Demo.run_reaction Demo.send_ok Demo.star Demo.w_joined.
Proof.
  exact (dispatch_runs_the_handler
           (_reaction Demo.star_room_id Demo.user_id Demo.make_pill Demo.room_get_event
              Demo.send_ok Demo.sync 2)
           Demo.origin Demo.star _ (JStr "$target") Demo.w_joined
           eq_refl eq_refl eq_refl eq_refl eq_refl).
Defined.

Lemma malformed_relation_stops_the_router_witness :
  Demo.run_unknown Demo.send_ok Demo.string_relation Demo.w_joined
    = (Raised (AttributeError "get"), Demo.w_joined).
Proof.
  apply (malformed_relation_stops_the_router
           (_reaction Demo.star_room_id Demo.user_id Demo.make_pill Demo.room_get_event
              Demo.send_ok Demo.sync 2)
           Demo.origin Demo.string_relation Demo.w_joined).
  - reflexivity.
  - right. exists {[ "m.relates_to" := JStr "$target" ]}, (JStr "$target").
    split; [reflexivity|]. split; [reflexivity|]. intros d H. discriminate H.
Defined.

Lemma router_relays_a_star_witness :
  length (sends (trace (Demo.run_unknown Demo.send_ok Demo.star Demo.w_joined).2)) = 1 /\
  lookups (trace (Demo.run_unknown Demo.send_ok Demo.star Demo.w_joined).2) = 1.
Proof.
  unfold Demo.run_unknown.
  rewrite (router_relays_a_star Demo.star_room_id Demo.user_id Demo.make_pill
             Demo.room_get_event Demo.send_ok Demo.sync 1 Demo.origin Demo.star
             {[ "m.relates_to" := Demo.relation [("key", JStr star_glyph)] ]}
             (list_to_map [("event_id", JStr "$target");
                           ("rel_type", JStr "m.annotation");
                           ("key", JStr star_glyph)])
             (JStr "$target") "@alice:lant.uk" "$target" "hello world"
             Demo.star_room "$notice" Demo.w_joined).
  - split; reflexivity.
  - reflexivity.
  - reflexivity.
  - reflexivity.
  - reflexivity.
  - reflexivity.
  - reflexivity.
  - reflexivity.
  - reflexivity.
  - intros H; vm_compute in H; discriminate H.
  - reflexivity.
  - reflexivity.
  - reflexivity.
Defined.

Lemma failed_login_ends_main_witness :
  Demo.run_main (ret false) Demo.sync_forever 3 Demo.w_away
    = (Returned false, emits Demo.w_away [Close]).
Proof.
  exact (failed_login_ends_main Demo.star_room_id Demo.user_id (ret false)
           Demo.join_accepted Demo.sync_forever 2 Demo.w_away Demo.w_away eq_refl).
Defined.

Lemma dropped_connection_is_retried_witness :
  Demo.sync_forever 0 = ForeverRaises ServerDisconnectedError /\
  sleeps (trace (Demo.run_main (ret true) Demo.sync_forever 1 Demo.w_joined).2) = 1 /\
  joins (trace (Demo.run_main (ret true) Demo.sync_forever 1 Demo.w_joined).2) = 0.
Proof.
  split; [reflexivity|]. unfold Demo.run_main.
  rewrite (dropped_connection_is_retried Demo.star_room_id Demo.user_id (ret true)
             Demo.join_accepted Demo.sync_forever 0 Demo.w_joined Demo.w_joined
             Demo.star_room ServerDisconnectedError eq_refl eq_refl eq_refl
             (or_intror eq_refl)).
  split; reflexivity.
Defined.

Lemma stopped_sync_forever_restarts_witness :
  Demo.sync_forever_stopped 0 = ForeverReturns /\
  sleeps (trace (Demo.run_main (ret true) Demo.sync_forever_stopped 1 Demo.w_joined).2) = 0 /\
  closes (trace (Demo.run_main (ret true) Demo.sync_forever_stopped 1 Demo.w_joined).2) = 1.
Proof.
  split; [reflexivity|]. unfold Demo.run_main.
  rewrite (stopped_sync_forever_restarts Demo.star_room_id Demo.user_id (ret true)
             Demo.join_accepted Demo.sync_forever_stopped 0 Demo.w_joined Demo.w_joined
             Demo.star_room eq_refl eq_refl eq_refl).
  split; reflexivity.
Defined.

Lemma other_error_ends_main_witness :
  Demo.sync_forever_broken 0 = ForeverRaises (LocalProtocolError "Not logged in.") /\
  (Demo.run_main (ret true) Demo.sync_forever_broken 3 Demo.w_joined).1
    = Raised (LocalProtocolError "Not logged in.") /\
  sleeps (trace (Demo.run_main (ret true) Demo.sync_forever_broken 3 Demo.w_joined).2) = 0.
Proof.
  split; [reflexivity|]. unfold Demo.run_main.
  rewrite (other_error_ends_main Demo.star_room_id Demo.user_id (ret true)
             Demo.join_accepted Demo.sync_forever_broken 2 Demo.w_joined Demo.w_joined
             Demo.star_room (LocalProtocolError "Not logged in.")
             eq_refl eq_refl eq_refl).
  - split; reflexivity.
  - intros H. discriminate H.
  - intros H. discriminate H.
Defined.

Lemma offline_login_is_retried_witness :
  sleeps (trace (Demo.run_main (raise ClientConnectionError) Demo.sync_forever 1
                   Demo.w_away).2) = 1 /\
  forevers (trace (Demo.run_main (raise ClientConnectionError) Demo.sync_forever 1
                     Demo.w_away).2) = 0.
Proof.
  unfold Demo.run_main.
  rewrite (offline_login_is_retried Demo.star_room_id Demo.user_id
             (raise ClientConnectionError) Demo.join_accepted Demo.sync_forever 0
             Demo.w_away Demo.w_away ClientConnectionError eq_refl (or_introl eq_refl)).
  split; reflexivity.
Defined.


Lemma main_always_closes_the_client_witness :
  (Demo.run_main (ret true) Demo.sync_forever_broken 3 Demo.w_away).1 <> OutOfFuel /\
  exists t, trace (Demo.run_main (ret true) Demo.sync_forever_broken 3 Demo.w_away).2
            = t ++ [Close].
Proof.
  assert ((Demo.run_main (ret true) Demo.sync_forever_broken 3 Demo.w_away).1
            <> OutOfFuel) as Hends
    by (intros H; vm_compute in H; discriminate H).
  split; [exact Hends|].
  exact (main_always_closes_the_client Demo.star_room_id Demo.user_id (ret true)
           Demo.join_accepted Demo.sync_forever_broken 3 Demo.w_away Hends).
Defined.

Lemma accepted_joins_enter_the_receive_loop_witness :
  rooms Demo.w_away !! Demo.star_room_id = None /\
  joins (trace (session Demo.star_room_id Demo.user_id (ret true) Demo.join_accepted
                  Demo.sync_forever Demo.w_away).2) = 3 /\
  forevers (trace (session Demo.star_room_id Demo.user_id (ret true) Demo.join_accepted
                     Demo.sync_forever Demo.w_away).2) = 1.
Proof.
  split; [reflexivity|].
  destruct (accepted_joins_enter_the_receive_loop Demo.star_room_id Demo.user_id
              (ret true) Demo.join_accepted Demo.sync_forever Demo.w_away Demo.w_away
              "!stars:lant.uk" "!stars:lant.uk" "!stars:lant.uk"
              eq_refl eq_refl eq_refl eq_refl eq_refl) as (Hjoins & Hforevers & _).
  split; [exact Hjoins | exact Hforevers].
Defined.

Lemma different_events_get_different_links_witness :
  ("!lobby:lant.uk", "$one") <> ("!lobby:lant.uk", "$two") /\
  deep_link "!lobby:lant.uk" "$one" <> deep_link "!lobby:lant.uk" "$two".
Proof.
  assert (("!lobby:lant.uk", "$one") <> ("!lobby:lant.uk", "$two")) as Hne
    by (intros H; discriminate H).
  split; [exact Hne|].
  exact (different_events_get_different_links "!lobby:lant.uk" "$one"
           "!lobby:lant.uk" "$two" eq_refl eq_refl eq_refl eq_refl Hne).
Defined.
